(** * Student records server ([server.js]): the record API and its store

    A shallow embedding of the Express handlers of [server.js]
    ([GET /students], [POST /students], [DELETE /students/:id], [POST /chat])
    and of the helpers they share ([ensureDataFile], [readStudents],
    [writeStudents]), with the properties of the specification that concern
    them.

    Conventions of the embedding:
    - a JavaScript string is the list of its UTF-16 code units;
    - a value parsed from JSON is a tree ([value]); [undefined] is part of it
      because property access produces it; the body of a request is such a
      value, handed over by [express.json()];
    - the data file is the single piece of state, passed explicitly; a handler
      is a function from the file to a response and the file it leaves;
    - a JavaScript exception is [None]; every handler catches it and answers
      500, as the [try]/[catch] blocks of the source do;
    - the file system calls of fs-extra succeed, apart from [readJson] on a
      file that does not hold JSON, which throws;
    - a JSON number is kept as an integer, in the range where [JSON.parse],
      [JSON.stringify] and [String] are exact (magnitude below 2^53);
      numerals with a fraction or an exponent are outside the embedding. *)

From Stdlib Require Import List NArith ZArith Bool Lia String Ascii.
From Stdlib Require Decimal.
Import ListNotations.

Set Warnings "-register-all".
Local Open Scope N_scope.

(** ** Strings *)

Module JsString.

(** A string value: its UTF-16 code units. *)
Definition jsstring := list N.

(** An ASCII literal of the source, as code units. *)
Definition lit (s : string) : jsstring :=
  List.map N_of_ascii (list_ascii_of_string s).

Definition eqb (a b : jsstring) : bool :=
  if list_eq_dec N.eq_dec a b then true else false.

(** WhiteSpace and LineTerminator code points of ECMAScript: what
    [String.prototype.trim] strips and what [\s] matches. *)
Definition white_space : list (N * N) :=
  [ (9, 13); (32, 32); (160, 160); (5760, 5760); (8192, 8202);
    (8232, 8233); (8239, 8239); (8287, 8287); (12288, 12288);
    (65279, 65279) ].

Definition in_ranges (rs : list (N * N)) (c : N) : bool :=
  existsb (fun r => (fst r <=? c) && (c <=? snd r)) rs.

Definition is_white_space (c : N) : bool := in_ranges white_space c.

Fixpoint trimStart (s : jsstring) : jsstring :=
  match s with
  | c :: s' => if is_white_space c then trimStart s' else s
  | [] => []
  end.

Definition trimEnd (s : jsstring) : jsstring := rev (trimStart (rev s)).

(** [s.trim()] *)
Definition trim (s : jsstring) : jsstring := trimEnd (trimStart s).

End JsString.
Export JsString.

(** ** Regular expressions

    Every pattern of the source is anchored at both ends ([^...$]) and has no
    [m] flag, no group reference and no look-around, so [RegExp.prototype.test]
    decides whether the whole string belongs to the language of the pattern.
    Membership is computed with derivatives. *)

Module RegExp.

Inductive regex : Type :=
| Void                                  (* matches nothing *)
| Eps                                   (* the empty string *)
| CharSet (rs : list (N * N))           (* a class, as code-unit ranges *)
| Cat (a b : regex)
| Or (a b : regex)
| Star (a : regex).

(** Members of a class, enumerated. *)
Definition range_members (r : N * N) : list N :=
  List.map (fun k => fst r + N.of_nat k)
           (seq 0 (N.to_nat (N.succ (snd r) - fst r))).

Definition members (rs : list (N * N)) : list N :=
  flat_map range_members rs.

(** Canonicalize of ECMAScript for a pattern without the [u] flag, under
    [ignoreCase]: the upper-case mapping, kept only when it is a single code
    unit and does not send a code unit of 128 or more below 128. The patterns
    of the source hold ASCII only, and a code unit of 128 or more is never
    canonicalised to ASCII, so on them the mapping behaves as the ASCII one
    below: it is the identity outside [a-z]. *)
Definition canonicalize (c : N) : N :=
  if (97 <=? c) && (c <=? 122) then c - 32 else c.

(** CharacterSetMatcher: without [i], membership; with [i], some member has
    the same canonical form as the input character. *)
Definition char_set_matches (ignoreCase : bool) (rs : list (N * N)) (c : N)
  : bool :=
  if ignoreCase
  then existsb (fun m => canonicalize m =? canonicalize c) (members rs)
  else in_ranges rs c.

Fixpoint nullable (r : regex) : bool :=
  match r with
  | Void => false
  | Eps => true
  | CharSet _ => false
  | Cat a b => nullable a && nullable b
  | Or a b => nullable a || nullable b
  | Star _ => true
  end.

Fixpoint deriv (i : bool) (c : N) (r : regex) : regex :=
  match r with
  | Void => Void
  | Eps => Void
  | CharSet rs => if char_set_matches i rs c then Eps else Void
  | Cat a b =>
      if nullable a
      then Or (Cat (deriv i c a) b) (deriv i c b)
      else Cat (deriv i c a) b
  | Or a b => Or (deriv i c a) (deriv i c b)
  | Star a => Cat (deriv i c a) (Star a)
  end.

Fixpoint matches (i : bool) (r : regex) (s : jsstring) : bool :=
  match s with
  | [] => nullable r
  | c :: s' => matches i (deriv i c r) s'
  end.

(** The language of a pattern, to say what [matches] computes
    ([matches_in_lang] below). *)
Inductive in_lang (i : bool) : regex -> jsstring -> Prop :=
| in_Eps : in_lang i Eps []
| in_CharSet rs c :
    char_set_matches i rs c = true -> in_lang i (CharSet rs) [c]
| in_Cat a b s t :
    in_lang i a s -> in_lang i b t -> in_lang i (Cat a b) (s ++ t)
| in_Or_left a b s : in_lang i a s -> in_lang i (Or a b) s
| in_Or_right a b s : in_lang i b s -> in_lang i (Or a b) s
| in_Star_nil a : in_lang i (Star a) []
| in_Star_more a s t :
    in_lang i a s -> in_lang i (Star a) t -> in_lang i (Star a) (s ++ t).

(** A pattern that visibly matches nothing. *)
Fixpoint void (r : regex) : bool :=
  match r with
  | Void => true
  | Cat a b => void a || void b
  | Or a b => void a && void b
  | Eps | CharSet _ | Star _ => false
  end.

(** A regular expression literal [/^pattern$/flags]. *)
Record t := { pattern : regex; ignoreCase : bool }.

(** [re.test(s)] for a string [s]. *)
Definition test (re : t) (s : jsstring) : bool :=
  matches (ignoreCase re) (pattern re) s.

(** Pattern syntax. *)
Definition chr (a : string) : regex :=            (* literal characters *)
  fold_right (fun c r => Cat (CharSet [(c, c)]) r) Eps (lit a).
Definition digit : regex := CharSet [(48, 57)].                  (* \d *)
Definition space : regex := CharSet white_space.                 (* \s *)
Definition plus (r : regex) : regex := Cat r (Star r).           (* r+ *)
Fixpoint times (n : nat) (r : regex) : regex :=                  (* r{n} *)
  match n with O => Eps | S n' => Cat r (times n' r) end.
Fixpoint upto (n : nat) (r : regex) : regex :=                   (* r{0,n} *)
  match n with O => Eps | S n' => Or Eps (Cat r (upto n' r)) end.
Definition between (lo hi : nat) (r : regex) : regex :=          (* r{lo,hi} *)
  Cat (times lo r) (upto (hi - lo) r).
Definition at_least (lo : nat) (r : regex) : regex :=            (* r{lo,} *)
  Cat (times lo r) (Star r).

End RegExp.

(** ** Values *)

Module Js.

(** What [JSON.parse] builds, and [undefined]. An object is the list of its
    own properties in insertion order (property names are distinct in an
    object, so at most one entry carries a given name). *)
Inductive value : Type :=
| VUndefined
| VNull
| VBool (b : bool)
| VNum (n : Z)
| VStr (s : jsstring)
| VArr (elems : list value)
| VObj (props : list (jsstring * value)).

Fixpoint lookup (k : jsstring) (props : list (jsstring * value)) : value :=
  match props with
  | [] => VUndefined
  | (k', v) :: rest => if JsString.eqb k' k then v else lookup k rest
  end.

(** [v[k]], for the property names the server uses (the seven field names,
    [message], [choices], [content]): none of them is a property of an
    array, a string, a number or a boolean, whose access gives [undefined];
    on [undefined] and [null] the access throws a TypeError. *)
Definition get (v : value) (k : jsstring) : option value :=
  match v with
  | VUndefined | VNull => None
  | VObj props => Some (lookup k props)
  | _ => Some VUndefined
  end.

(** [v?.k]; it is [v.k] when [v] is neither [undefined] nor [null]. *)
Definition opt_get (v : value) (k : jsstring) : value :=
  match get v k with
  | Some x => x
  | None => VUndefined
  end.

Definition nullish (v : value) : bool :=
  match v with VUndefined | VNull => true | _ => false end.

(** ToBoolean: [!v] is [negb (truthy v)]. *)
Definition truthy (v : value) : bool :=
  match v with
  | VUndefined | VNull => false
  | VBool b => b
  | VNum n => negb (n =? 0)%Z
  | VStr s => negb (JsString.eqb s [])
  | VArr _ | VObj _ => true
  end.

Fixpoint digits (u : Decimal.uint) : jsstring :=
  match u with
  | Decimal.Nil => []
  | Decimal.D0 u' => 48 :: digits u'
  | Decimal.D1 u' => 49 :: digits u'
  | Decimal.D2 u' => 50 :: digits u'
  | Decimal.D3 u' => 51 :: digits u'
  | Decimal.D4 u' => 52 :: digits u'
  | Decimal.D5 u' => 53 :: digits u'
  | Decimal.D6 u' => 54 :: digits u'
  | Decimal.D7 u' => 55 :: digits u'
  | Decimal.D8 u' => 56 :: digits u'
  | Decimal.D9 u' => 57 :: digits u'
  end.

(** Number::toString of an integer: the decimal numeral. *)
Definition number_to_string (n : Z) : jsstring :=
  match Z.to_int n with
  | Decimal.Pos u => digits u
  | Decimal.Neg u => 45 :: digits u
  end.

(** [a.join(",")] on strings already converted. *)
Fixpoint join (parts : list jsstring) : jsstring :=
  match parts with
  | [] => []
  | [p] => p
  | p :: rest => p ++ 44 :: join rest
  end.

(** ToString, the coercion of [String(v)], of [RegExp.prototype.test] and of
    [+] with a string. An array joins its elements, [null] and [undefined]
    elements giving the empty string. An object answers "[object Object]"
    through [Object.prototype.toString], unless it has an own property
    [toString]: a value parsed from JSON is not callable, and the conversion
    throws a TypeError. *)
Fixpoint to_string (v : value) : option jsstring :=
  match v with
  | VUndefined => Some (lit "undefined")
  | VNull => Some (lit "null")
  | VBool true => Some (lit "true")
  | VBool false => Some (lit "false")
  | VNum n => Some (number_to_string n)
  | VStr s => Some s
  | VArr elems =>
      option_map join
        ((fix parts (l : list value) : option (list jsstring) :=
            match l with
            | [] => Some []
            | e :: rest =>
                match match e with
                      | VUndefined | VNull => Some []
                      | _ => to_string e
                      end, parts rest with
                | Some p, Some ps => Some (p :: ps)
                | _, _ => None
                end
            end) elems)
  | VObj props =>
      match lookup (lit "toString") props with
      | VUndefined => Some (lit "[object Object]")
      | _ => None
      end
  end.

(** [String(v)] *)
Definition string_of (v : value) : option value :=
  option_map VStr (to_string v).

(** [a === b] between a value read from the data file and a value of the
    request (or the string of a route parameter): primitives compare by
    value; an array or object of one is never the same reference as one of
    the other. *)
Definition strict_eq (a b : value) : bool :=
  match a, b with
  | VUndefined, VUndefined => true
  | VNull, VNull => true
  | VBool x, VBool y => Bool.eqb x y
  | VNum x, VNum y => (x =? y)%Z
  | VStr x, VStr y => JsString.eqb x y
  | _, _ => false
  end.

Definition is_array (v : value) : bool :=
  match v with VArr _ => true | _ => false end.

Definition is_object (v : value) : bool :=
  match v with VObj _ => true | _ => false end.

(** [typeof v === 'string'] *)
Definition is_string (v : value) : bool :=
  match v with VStr _ => true | _ => false end.

(** [re.test(v)] *)
Definition test (re : RegExp.t) (v : value) : option bool :=
  option_map (RegExp.test re) (to_string v).

End Js.
Export Js.

(** ** The data file and the handlers' control flow *)

Module Http.

(** [DATA_FILE] on disk. *)
Inductive file : Type :=
| Absent                  (* [pathExists] is false *)
| Garbled                 (* present, and [readJson] cannot parse it *)
| Holds (v : value).      (* present, holding the JSON text of [v] *)

Record response := { status : N; body : value }.

(** [res.status(code).json({ error: msg })] *)
Definition error (code : N) (msg : jsstring) : response :=
  {| status := code; body := VObj [(lit "error", VStr msg)] |}.

(** A statement of a handler: it goes on with a result, or has answered
    ([return res...json(...)]), or has thrown; the file it leaves comes
    with each. *)
Inductive outcome (A : Type) : Type :=
| Next (a : A)
| Answered (r : response)
| Thrown.
Arguments Next {A} a.
Arguments Answered {A} r.
Arguments Thrown {A}.

Definition action (A : Type) : Type := file -> outcome A * file.

Definition ret {A} (a : A) : action A := fun f => (Next a, f).

Definition bind {A B} (m : action A) (k : A -> action B) : action B :=
  fun f =>
    match m f with
    | (Next a, f') => k a f'
    | (Answered r, f') => (Answered r, f')
    | (Thrown, f') => (Thrown, f')
    end.

Definition respond {A} (r : response) : action A :=
  fun f => (Answered r, f).

(** A computation that may throw. *)
Definition lift {A} (o : option A) : action A :=
  fun f => match o with Some a => (Next a, f) | None => (Thrown, f) end.

(** [try { body } catch { res.status(500).json(...) }] *)
Definition try_catch (body : action response) (caught : response)
  : file -> response * file :=
  fun f =>
    match body f with
    | (Next r, f') => (r, f')
    | (Answered r, f') => (r, f')
    | (Thrown, f') => (caught, f')
    end.

End Http.
Export Http.

Notation "x <- m ;; k" := (bind m (fun x => k))
  (at level 61, m at next level, right associativity).
Notation "m ;;; k" := (bind m (fun _ => k))
  (at level 61, right associativity).

(** ** [server.js] *)

Section Server.

(** The bundled [data/students.json], loaded once by [require]. *)
Variable SEED_STUDENTS : value.

(** [process.env.GROQ_API_KEY || ''] *)
Variable GROQ_API_KEY : jsstring.

(** The completion service behind [axios.post], for the prompt built from
    the students and the message: the [data] of its response, or [None] when
    the call rejects (network failure, timeout, error status). *)
Variable axios_post : value -> jsstring -> option value.

(** *** Data helpers *)

Definition readJson (f : file) : option value :=
  match f with
  | Holds v => Some v
  | Absent | Garbled => None
  end.

Definition writeJson (v : value) : action unit :=
  fun _ => (Next tt, Holds v).

Definition ensureDataFile : action unit :=
  fun f =>
    match f with
    | Absent => writeJson SEED_STUDENTS f
    | _ =>
        match readJson f with
        | Some (VArr []) => writeJson SEED_STUDENTS f
        | Some _ => (Next tt, f)
        | None => writeJson SEED_STUDENTS f
        end
    end.

Definition readStudents : action value :=
  ensureDataFile ;;; (fun f => lift (readJson f) f).

Definition writeStudents (students : value) : action unit :=
  writeJson students.

(** *** Array methods used by the routes; each throws on a receiver that is
    not an array (the method is [undefined] there). *)

Fixpoint some_of (cb : value -> option bool) (l : list value) : option bool :=
  match l with
  | [] => Some false
  | s :: rest =>
      match cb s with
      | None => None
      | Some true => Some true
      | Some false => some_of cb rest
      end
  end.

Definition some (students : value) (cb : value -> option bool) : option bool :=
  match students with
  | VArr l => some_of cb l
  | _ => None
  end.

Fixpoint findIndex_from (cb : value -> option bool) (l : list value) (i : Z)
  : option Z :=
  match l with
  | [] => Some (-1)%Z
  | s :: rest =>
      match cb s with
      | None => None
      | Some true => Some i
      | Some false => findIndex_from cb rest (i + 1)%Z
      end
  end.

Definition findIndex (students : value) (cb : value -> option bool)
  : option Z :=
  match students with
  | VArr l => findIndex_from cb l 0%Z
  | _ => None
  end.

(** [students.push(payload)]: the array after the call. *)
Definition push (students payload : value) : option value :=
  match students with
  | VArr l => Some (VArr (l ++ [payload]))
  | _ => None
  end.

(** [students.splice(idx, 1)] for [idx >= 0]: the removed elements and the
    array after the call. *)
Definition splice1 (students : value) (idx : Z) : option (list value * value) :=
  match students with
  | VArr l =>
      let i := Z.to_nat idx in
      Some (firstn 1 (skipn i l), VArr (firstn i l ++ skipn (S i) l))
  | _ => None
  end.

(** [const [removed] = ...] *)
Definition first_of (l : list value) : value :=
  match l with x :: _ => x | [] => VUndefined end.

(** The arrow function [(s) => s.studentId === id] of both routes. *)
Definition same_id (id : value) (s : value) : option bool :=
  match get s (lit "studentId") with
  | Some sid => Some (strict_eq sid id)
  | None => None
  end.

(** *** Routes *)

(** [GET /students] *)
Definition get_students : file -> response * file :=
  try_catch
    (students <- readStudents ;;
     ret {| status := 200; body := students |})
    (error 500 (lit "Failed to read students.")).

Definition required : list jsstring :=
  [ lit "studentId"; lit "fullName"; lit "gender"; lit "gmail";
    lit "program"; lit "yearLevel"; lit "university" ].

(** [/^[A-Za-z0-9._%+-]+@gmail\.com$/i] *)
Definition GMAIL_RE : RegExp.t :=
  {| RegExp.pattern :=
       RegExp.Cat
         (RegExp.plus
            (RegExp.CharSet [ (65, 90); (97, 122); (48, 57); (46, 46);
                              (95, 95); (37, 37); (43, 43); (45, 45) ]))
         (RegExp.chr "@gmail.com");
     RegExp.ignoreCase := true |}.

(** [/^\d(st|nd|rd|th)\s+Year$/i] *)
Definition ORDINAL_RE : RegExp.t :=
  {| RegExp.pattern :=
       RegExp.Cat RegExp.digit
         (RegExp.Cat
            (RegExp.Or (RegExp.chr "st")
               (RegExp.Or (RegExp.chr "nd")
                  (RegExp.Or (RegExp.chr "rd") (RegExp.chr "th"))))
            (RegExp.Cat (RegExp.plus RegExp.space) (RegExp.chr "Year")));
     RegExp.ignoreCase := true |}.

(** [/^\d+$/] *)
Definition NUM_YEAR_RE : RegExp.t :=
  {| RegExp.pattern := RegExp.plus RegExp.digit;
     RegExp.ignoreCase := false |}.

(** [/^[A-Z]{1,4}-\d{3}-\d{5}$/] *)
Definition STUDENT_ID_RE : RegExp.t :=
  {| RegExp.pattern :=
       RegExp.Cat (RegExp.between 1 4 (RegExp.CharSet [(65, 90)]))
         (RegExp.Cat (RegExp.chr "-")
            (RegExp.Cat (RegExp.times 3 RegExp.digit)
               (RegExp.Cat (RegExp.chr "-") (RegExp.times 5 RegExp.digit))));
     RegExp.ignoreCase := false |}.

(** [!payload[k] || String(payload[k]).trim() === '']; the right operand is
    evaluated when the left one is false. *)
Definition is_missing (v : value) : option bool :=
  if negb (truthy v) then Some true
  else option_map (fun s => JsString.eqb (trim s) []) (to_string v).

(** The [for (const k of required)] loop. *)
Fixpoint check_required (payload : value) (ks : list jsstring) : action unit :=
  match ks with
  | [] => ret tt
  | k :: rest =>
      v <- lift (get payload k) ;;
      missing <- lift (is_missing v) ;;
      if missing
      then respond (error 400 (lit "Missing field: " ++ k))
      else check_required payload rest
  end.

(** [POST /students] *)
Definition post_students (payload : value) : file -> response * file :=
  try_catch
    (check_required payload required ;;;
     gmail <- lift (get payload (lit "gmail")) ;;
     isGmail <- lift (Js.test GMAIL_RE gmail) ;;
     if negb isGmail
     then respond (error 400 (lit "Email must be a valid Gmail address."))
     else
     yearLevel <- lift (get payload (lit "yearLevel")) ;;
     isOrdinal <- lift (Js.test ORDINAL_RE yearLevel) ;;
     year <- lift (string_of yearLevel) ;;
     isNumYear <- lift (Js.test NUM_YEAR_RE year) ;;
     if negb isOrdinal && negb isNumYear
     then respond
            (error 400
               (lit "Year Level must be like " ++ 34 :: lit "1st Year"
                  ++ 34 :: lit " or a number."))
     else
     studentId <- lift (get payload (lit "studentId")) ;;
     isStudentId <- lift (Js.test STUDENT_ID_RE studentId) ;;
     if negb isStudentId
     then respond
            (error 400 (lit "Student ID format invalid (e.g., BP-113-00001)."))
     else
     students <- readStudents ;;
     taken <- lift (some students (same_id studentId)) ;;
     if taken
     then respond (error 409 (lit "Student ID already exists."))
     else
     students' <- lift (push students payload) ;;
     writeStudents students' ;;;
     ret {| status := 201; body := payload |})
    (error 500 (lit "Failed to add student.")).

(** [DELETE /students/:id]; [id] is the route parameter, a string. *)
Definition delete_student (id : jsstring) : file -> response * file :=
  try_catch
    (students <- readStudents ;;
     idx <- lift (findIndex students (same_id (VStr id))) ;;
     if (idx =? -1)%Z
     then respond (error 404 (lit "Not found"))
     else
     spliced <- lift (splice1 students idx) ;;
     let removed := first_of (fst spliced) in
     writeStudents (snd spliced) ;;;
     ret {| status := 200; body := removed |})
    (error 500 (lit "Failed to delete student.")).

(** *** [POST /chat] *)

(** [v?.[0]] *)
Definition opt_first (v : value) : value :=
  match v with
  | VArr (x :: _) => x
  | VStr (c :: _) => VStr [c]
  | VObj props => lookup (lit "0") props
  | _ => VUndefined
  end.

(** [v?.trim()]: [undefined] on [undefined] and [null], the trimmed string
    on a string, a TypeError on anything else ([trim] is not a function). *)
Definition opt_trim (v : value) : option value :=
  match v with
  | VUndefined | VNull => Some VUndefined
  | VStr s => Some (VStr (trim s))
  | _ => None
  end.

(** [const { message } = req.body || {}] *)
Definition message_of (body : value) : value :=
  if truthy body then opt_get body (lit "message") else VUndefined.

Definition array_length (v : value) : nat :=
  match v with VArr l => List.length l | _ => 0 end.

Definition post_chat (body : value) : file -> response * file :=
  fun f =>
    let message := message_of body in
    if negb (truthy message) || negb (is_string message)
    then (error 400 (lit "Message is required."), f)
    else
      try_catch
        (students <- readStudents ;;
         if negb (is_array students) || Nat.eqb (array_length students) 0
         then respond (error 400 (lit "No student data available."))
         else
         if negb (truthy (VStr GROQ_API_KEY))
         then respond
                (error 500 (lit "LLM API key not configured on the server."))
         else
         question <- lift (to_string message) ;;
         data <- lift (axios_post students question) ;;
         reply <- lift (opt_trim
                    (opt_get
                       (opt_get (opt_first (opt_get data (lit "choices")))
                          (lit "message"))
                       (lit "content"))) ;;
         if negb (truthy reply)
         then respond (error 500 (lit "Empty reply from LLM."))
         else ret {| status := 200; body := VObj [(lit "reply", reply)] |})
        (error 500 (lit "Failed to contact LLM API."))
        f.

End Server.

(** ** The collection a route works on

    What [readStudents] returns, in one piece: the content of the file, or
    the seed when the file is missing, unreadable or holds the empty array
    ([readStudents_current] below). *)
Definition current (SEED_STUDENTS : value) (f : file) : value :=
  match f with
  | Absent | Garbled => SEED_STUDENTS
  | Holds (VArr []) => SEED_STUDENTS
  | Holds v => v
  end.

(** ** The fields and the checks of [POST /students], named *)

Inductive field : Type :=
| StudentId | FullName | Gender | Gmail | Program | YearLevel | University.

Definition field_name (k : field) : jsstring :=
  match k with
  | StudentId => lit "studentId"
  | FullName => lit "fullName"
  | Gender => lit "gender"
  | Gmail => lit "gmail"
  | Program => lit "program"
  | YearLevel => lit "yearLevel"
  | University => lit "university"
  end.

Definition field_eqb (a b : field) : bool :=
  JsString.eqb (field_name a) (field_name b).

(** [payload.k] of a payload that is neither [undefined] nor [null]. *)
Definition field_of (payload : value) (k : field) : value :=
  opt_get payload (field_name k).

(** The tests [POST /students] makes before it touches the file. *)
Inductive check : Type :=
| Presence (k : field)        (* an iteration of the loop over [required] *)
| GmailFormat
| YearLevelFormat
| StudentIdFormat.

(** The order in which the handler makes them. *)
Definition check_order : list check :=
  [ Presence StudentId; Presence FullName; Presence Gender; Presence Gmail;
    Presence Program; Presence YearLevel; Presence University;
    GmailFormat; YearLevelFormat; StudentIdFormat ].

(** Whether a test sends the candidate back; [None] when the test throws. *)
Definition fails (c : check) (payload : value) : option bool :=
  match c with
  | Presence k => is_missing (field_of payload k)
  | GmailFormat => option_map negb (Js.test GMAIL_RE (field_of payload Gmail))
  | YearLevelFormat =>
      option_map
        (fun y => negb (RegExp.test ORDINAL_RE y)
                  && negb (RegExp.test NUM_YEAR_RE y))
        (to_string (field_of payload YearLevel))
  | StudentIdFormat =>
      option_map negb (Js.test STUDENT_ID_RE (field_of payload StudentId))
  end.

(** The tests run in order: all pass, or one sends the candidate back, or
    one throws. *)
Inductive verdict : Type :=
| Passes
| Rejects (c : check)
| Throws.

Fixpoint run_checks (payload : value) (cs : list check) : verdict :=
  match cs with
  | [] => Passes
  | c :: rest =>
      match fails c payload with
      | None => Throws
      | Some true => Rejects c
      | Some false => run_checks payload rest
      end
  end.

(** The [error] text of the 400 answer of each test. *)
Definition message (c : check) : jsstring :=
  match c with
  | Presence k => lit "Missing field: " ++ field_name k
  | GmailFormat => lit "Email must be a valid Gmail address."
  | YearLevelFormat =>
      lit "Year Level must be like " ++ 34 :: lit "1st Year"
        ++ 34 :: lit " or a number."
  | StudentIdFormat => lit "Student ID format invalid (e.g., BP-113-00001)."
  end.

Definition check_field (c : check) : field :=
  match c with
  | Presence k => k
  | GmailFormat => Gmail
  | YearLevelFormat => YearLevel
  | StudentIdFormat => StudentId
  end.

(** An error text names a field when it is the text of a test on it. *)
Definition names (msg : jsstring) (k : field) : bool :=
  existsb (fun c => field_eqb (check_field c) k && JsString.eqb (message c) msg)
          check_order.

Definition passes (c : check) (payload : value) : bool :=
  match fails c payload with
  | Some false => true
  | _ => false
  end.

Definition passes_validation (payload : value) : bool :=
  forallb (fun c => passes c payload) check_order.

(** A stored record: a JSON object. *)
Definition records (l : list value) : Prop :=
  Forall (fun s => is_object s = true) l.

(** [x] is in [l] at one position and no other. *)
Definition occurs_once (x : value) (l : list value) : Prop :=
  exists l1 l2, l = l1 ++ x :: l2 /\ ~ In x l1 /\ ~ In x l2.

(** ** The validation table of the specification (section 4.2) *)

Module Spec.

(** The fields in the order of the table. *)
Definition table : list field :=
  [ StudentId; FullName; Gmail; Program; University; YearLevel; Gender ].

(** [^[A-Za-z ]{2,}$], the rule of [fullName]; the form handler of the
    browser code tests it, [server.js] has no such test. *)
Definition FULL_NAME_RE : RegExp.t :=
  {| RegExp.pattern :=
       RegExp.at_least 2 (RegExp.CharSet [ (65, 90); (97, 122); (32, 32) ]);
     RegExp.ignoreCase := false |}.

Definition rule (k : field) (s : jsstring) : bool :=
  match k with
  | StudentId => RegExp.test STUDENT_ID_RE s
  | FullName => RegExp.test FULL_NAME_RE s
  | Gmail => RegExp.test GMAIL_RE s
  | Program | University => negb (JsString.eqb (trim s) [])
  | YearLevel => RegExp.test NUM_YEAR_RE s || RegExp.test ORDINAL_RE s
  | Gender => negb (JsString.eqb s [])
  end.

(** A candidate satisfies the rule of a field: the field is a string that
    the rule accepts. *)
Definition satisfies (payload : value) (k : field) : bool :=
  match field_of payload k with
  | VStr s => rule k s
  | _ => false
  end.

Definition valid (payload : value) : bool :=
  forallb (satisfies payload) table.

(** The first field of the table whose rule the candidate violates. *)
Definition first_violation (payload : value) : option field :=
  find (fun k => negb (satisfies payload k)) table.

Definition violations (payload : value) : list field :=
  filter (fun k => negb (satisfies payload k)) table.

(** Not blank: a string of which something is left after trimming. *)
Definition not_blank (payload : value) (k : field) : bool :=
  match field_of payload k with
  | VStr s => negb (JsString.eqb (trim s) [])
  | _ => false
  end.

(** A bare integer numeral and its value. *)
Definition is_digit (c : N) : bool := (48 <=? c) && (c <=? 57).

Definition all_digits (s : jsstring) : bool :=
  negb (JsString.eqb s []) && forallb is_digit s.

Definition numeral_value (s : jsstring) : N :=
  fold_left (fun acc c => 10 * acc + (c - 48)) s 0.

(** A bare positive integer. *)
Definition positive_integer (s : jsstring) : bool :=
  all_digits s && (0 <? numeral_value s).

End Spec.

(** ** The form handler of the browser code ([wireForm])

    The other place where a candidate is validated: the submit handler of the
    form collects every complaint before it posts the data. *)

Module Client.

(** [Object.fromEntries(new FormData(form).entries())]: the seven inputs of
    the form, all strings. *)
Record form_data := {
  studentId : jsstring;
  fullName : jsstring;
  gender : jsstring;
  gmail : jsstring;
  program : jsstring;
  yearLevel : jsstring;
  university : jsstring
}.

(** [if (cond) errors.push(msg)] *)
Definition complain (cond : bool) (msg : jsstring) : list jsstring :=
  if cond then [msg] else [].

(** The [errors] array when the handler looks at [errors.length]. *)
Definition errors (data : form_data) : list jsstring :=
  complain (negb (RegExp.test STUDENT_ID_RE (studentId data)))
           (lit "Student ID must look like BP-113-00001.")
  ++ complain (negb (RegExp.test Spec.FULL_NAME_RE (fullName data)))
              (lit "Full Name must be letters/spaces.")
  ++ complain (negb (RegExp.test GMAIL_RE (gmail data)))
              (lit "Gmail must be a valid @gmail.com email.")
  ++ complain (JsString.eqb (trim (program data)) [])
              (lit "Program is required.")
  ++ complain (JsString.eqb (trim (university data)) [])
              (lit "University is required.")
  ++ (let yl := trim (yearLevel data) in
      complain (negb (RegExp.test NUM_YEAR_RE yl)
                && negb (RegExp.test ORDINAL_RE yl))
               (lit "Year Level must be like " ++ 34 :: lit "5th Year"
                  ++ 34 :: lit " or a number 1..6.")).

(** The body of the request [API.add(data)] sends. *)
Definition payload (data : form_data) : value :=
  VObj [ (lit "studentId", VStr (studentId data));
         (lit "fullName", VStr (fullName data));
         (lit "gender", VStr (gender data));
         (lit "gmail", VStr (gmail data));
         (lit "program", VStr (program data));
         (lit "yearLevel", VStr (yearLevel data));
         (lit "university", VStr (university data)) ].

End Client.

(** ** Sample data *)

Definition student (id name gender gmail program year university : string)
  : value :=
  VObj [ (lit "studentId", VStr (lit id));
         (lit "fullName", VStr (lit name));
         (lit "gender", VStr (lit gender));
         (lit "gmail", VStr (lit gmail));
         (lit "program", VStr (lit program));
         (lit "yearLevel", VStr (lit year));
         (lit "university", VStr (lit university)) ].

(** The two records of the usage note of [tools/paste-to-json.js]. *)
Definition chelsea : value :=
  student "BP-113-00001" "Chelsea Greer" "Female" "chelseagreer@gmail.com"
          "BS Physics" "5th Year" "Caraga State University".

Definition nicolas : value :=
  student "BM-113-00002" "Nicolas Medina" "Male" "nicolasmedina@gmail.com"
          "BS Mathematics" "5th Year" "Caraga State University".

(** [chelsea] with properties beyond the seven fields. *)
Definition chelsea_extra : value :=
  match chelsea with
  | VObj props =>
      VObj (props ++ [ (lit "nickname", VStr (lit "Chels"));
                       (lit "admin", VBool true);
                       (lit "tags", VArr [VNum 1; VNull]) ])
  | v => v
  end.

(** Candidates that differ from [chelsea] in one or two fields. *)
Definition blank_name : value :=
  student "BP-113-00001" "  " "Female" "chelseagreer@gmail.com"
          "BS Physics" "5th Year" "Caraga State University".

Definition blank_gender : value :=
  student "BP-113-00001" "Chelsea Greer" " " "chelseagreer@gmail.com"
          "BS Physics" "5th Year" "Caraga State University".

Definition digits_in_name_form : Client.form_data :=
  {| Client.studentId := lit "BP-113-00001";
     Client.fullName := lit "Chelsea Gr33r";
     Client.gender := lit "Female";
     Client.gmail := lit "chelseagreer@gmail.com";
     Client.program := lit "BS Physics";
     Client.yearLevel := lit "5th Year";
     Client.university := lit "Caraga State University" |}.

Definition digits_in_name : value := Client.payload digits_in_name_form.

Definition bad_id_and_gmail : value :=
  student "bp-1" "Chelsea Greer" "Female" "chelseagreer@yahoo.com"
          "BS Physics" "5th Year" "Caraga State University".

Definition chelsea_bad_gmail : value :=
  student "BP-113-00001" "Chelsea Greer" "Female" "chelseagreer@yahoo.com"
          "BS Physics" "5th Year" "Caraga State University".

Definition year_zero : value :=
  student "BP-113-00001" "Chelsea Greer" "Female" "chelseagreer@gmail.com"
          "BS Physics" "0" "Caraga State University".

Definition year_five : value :=
  student "BP-113-00001" "Chelsea Greer" "Female" "chelseagreer@gmail.com"
          "BS Physics" "five" "Caraga State University".

(** A chat request, and a completion service that always answers "2". *)
Definition question : value :=
  VObj [ (lit "message", VStr (lit "How many students are there?")) ].

Definition answering (students : value) (prompt : jsstring) : option value :=
  Some (VObj [ (lit "choices",
                VArr [ VObj [ (lit "message",
                               VObj [ (lit "content", VStr (lit "2")) ]) ] ]) ]).

Definition unreachable (students : value) (prompt : jsstring) : option value :=
  None.

(** ** More string methods *)

Module StringOps.

(** Puts a character in front of the first piece. *)
Definition push_front (c : N) (pieces : list jsstring) : list jsstring :=
  match pieces with
  | p :: rest => (c :: p) :: rest
  | [] => [[c]]
  end.

(** [s.split(/\r?\n/)] *)
Fixpoint split_lines (s : jsstring) : list jsstring :=
  match s with
  | [] => [[]]
  | c :: rest =>
      if c =? 10 then [] :: split_lines rest
      else
        match rest with
        | d :: rest' =>
            if (c =? 13) && (d =? 10)
            then [] :: split_lines rest'
            else push_front c (split_lines rest)
        | [] => push_front c (split_lines rest)
        end
  end.

(** [s.split(sep)] for a separator of one character. *)
Fixpoint split_on (sep : N) (s : jsstring) : list jsstring :=
  match s with
  | [] => [[]]
  | c :: rest =>
      if c =? sep then [] :: split_on sep rest
      else push_front c (split_on sep rest)
  end.

(** [parts.join(sep)] for a separator string. *)
Fixpoint join_with (sep : jsstring) (parts : list jsstring) : jsstring :=
  match parts with
  | [] => []
  | [p] => p
  | p :: rest => p ++ sep ++ join_with sep rest
  end.

Fixpoint indexOf_from (c : N) (s : jsstring) (i : Z) : Z :=
  match s with
  | [] => (-1)%Z
  | d :: rest => if d =? c then i else indexOf_from c rest (i + 1)%Z
  end.

(** [s.indexOf(c)] for a string [c] of one character. *)
Definition indexOf (c : N) (s : jsstring) : Z := indexOf_from c s 0%Z.

(** [s.slice(0, idx)] and [s.slice(idx + 1)] for [idx >= 0]. *)
Definition slice_to (s : jsstring) (idx : Z) : jsstring :=
  firstn (Z.to_nat idx) s.

Definition slice_from (s : jsstring) (idx : Z) : jsstring :=
  skipn (Z.to_nat idx) s.

(** [s.startsWith(c)] for a string [c] of one character. *)
Definition startsWith (c : N) (s : jsstring) : bool :=
  match s with
  | d :: _ => d =? c
  | [] => false
  end.

(** [s.replaceAll(c, by)] for a string [c] of one character. *)
Definition replaceAll (c : N) (by_ : jsstring) (s : jsstring) : jsstring :=
  flat_map (fun d => if d =? c then by_ else [d]) s.

(** The non-empty strings of a list: [.filter(Boolean)]. *)
Definition non_empty (l : list jsstring) : list jsstring :=
  filter (fun s => negb (JsString.eqb s [])) l.

End StringOps.
Export StringOps.

(** ** [loadEnvFile] of [server.js]

    [process.env] is a map from names to strings, here the list of the
    assignments made, the latest first. The bytes of the file and their
    decoding are not part of the embedding: [readFileSync] is taken as it
    answers for each encoding, [None] when it throws. *)

Module Env.

Definition env : Type := list (jsstring * jsstring).

(** [process.env[key]] *)
Fixpoint getenv (key : jsstring) (e : env) : option jsstring :=
  match e with
  | [] => None
  | (k, v) :: rest => if JsString.eqb k key then Some v else getenv key rest
  end.

(** [process.env[key] = value] *)
Definition setenv (key value : jsstring) (e : env) : env := (key, value) :: e.

(** [line.replace(/^\uFEFF/, '')] *)
Definition strip_bom (line : jsstring) : jsstring :=
  match line with
  | c :: rest => if c =? 65279 then rest else line
  | [] => []
  end.

(** The lines the [forEach] sees: split, trimmed, neither empty nor
    comments. *)
Definition kept_lines (raw : jsstring) : list jsstring :=
  filter (fun l => negb (JsString.eqb l []) && negb (startsWith 35 l))
         (List.map trim (split_lines raw)).

(** The body of the [forEach]: the environment and the count after a
    line. *)
Definition each_line (state : env * nat) (line : jsstring) : env * nat :=
  let clean := strip_bom line in
  let idx := indexOf 61 clean in
  if (idx =? -1)%Z then state
  else
    let key := trim (slice_to clean idx) in
    let value := trim (slice_from clean (idx + 1)) in
    if negb (JsString.eqb key [])
    then (setenv key value (fst state), S (snd state))
    else state.

(** One turn of the loop over the encodings, up to the test of [count]. *)
Definition load (raw : jsstring) (e : env) : env * nat :=
  fold_left each_line (kept_lines raw) (e, O).

Inductive encoding : Type := utf8 | utf16le.

(** The loop over the encodings: it stops after the first one that gave a
    variable; a read that throws is logged and the next encoding tried. *)
Fixpoint try_encodings (readFileSync : encoding -> option jsstring)
    (encodings : list encoding) (e : env) : env :=
  match encodings with
  | [] => e
  | enc :: rest =>
      match readFileSync enc with
      | None => try_encodings readFileSync rest e
      | Some raw =>
          let (e', count) := load raw e in
          if (0 <? count)%nat then e'
          else try_encodings readFileSync rest e'
      end
  end.

Definition loadEnvFile (existsSync : bool)
    (readFileSync : encoding -> option jsstring) (e : env) : env :=
  if negb existsSync then e
  else try_encodings readFileSync [utf8; utf16le] e.

(** [process.env.GROQ_API_KEY || ''] and
    [process.env.LLM_MODEL || 'llama-3.3-70b-versatile'] *)
Definition or_default (v : option jsstring) (default : jsstring) : jsstring :=
  match v with
  | Some (c :: s) => c :: s
  | _ => default
  end.

Definition GROQ_API_KEY (e : env) : jsstring :=
  or_default (getenv (lit "GROQ_API_KEY") e) [].

Definition LLM_MODEL (e : env) : jsstring :=
  or_default (getenv (lit "LLM_MODEL") e) (lit "llama-3.3-70b-versatile").

End Env.

(** ** [tools/paste-to-json.js] *)

Module Paste.

(** [line.split('|').map(s => s.trim())] *)
Definition parts_of (line : jsstring) : list jsstring :=
  List.map trim (split_on 124 line).

(** The row of the seven parts of a line; no row when [parts.length !== 7]. *)
Definition row_of (parts : list jsstring) : option value :=
  match parts with
  | [studentId; fullName; gender; gmail; program; yearLevel; university] =>
      Some (VObj [ (lit "studentId", VStr studentId);
                   (lit "fullName", VStr fullName);
                   (lit "gender", VStr gender);
                   (lit "gmail", VStr gmail);
                   (lit "program", VStr program);
                   (lit "yearLevel", VStr yearLevel);
                   (lit "university", VStr university) ])
  | _ => None
  end.

(** [arg.split(/\r?\n/).map(l => l.trim()).filter(Boolean)] *)
Definition lines_of (arg : jsstring) : list jsstring :=
  non_empty (List.map trim (split_lines arg)).

(** The loop that fills [rows]: a line without seven parts is skipped. *)
Fixpoint rows_of (lines : list jsstring) : list value :=
  match lines with
  | [] => []
  | line :: rest =>
      match row_of (parts_of line) with
      | Some r => r :: rows_of rest
      | None => rows_of rest
      end
  end.

(** [current.map(s => s.studentId)]; it throws on a [null] element. *)
Fixpoint ids_of (current : list value) : option (list value) :=
  match current with
  | [] => Some []
  | s :: rest =>
      match get s (lit "studentId"), ids_of rest with
      | Some id, Some ids => Some (id :: ids)
      | _, _ => None
      end
  end.

(** [ids.has(id)] on the [Set] of the ids: SameValueZero, which is [===] on
    the values of JSON. *)
Definition has (ids : list value) (id : value) : bool :=
  existsb (fun x => strict_eq x id) ids.

(** [for (const r of rows) if (!ids.has(r.studentId)) current.push(r)];
    [ids] is not touched by the loop. *)
Fixpoint push_new (ids rows current : list value) : list value :=
  match rows with
  | [] => current
  | r :: rest =>
      if negb (has ids (opt_get r (lit "studentId")))
      then push_new ids rest (current ++ [r])
      else push_new ids rest current
  end.

(** How the script ends: an exception nobody catches, [process.exit(1)], or
    the last [console.log] with the two numbers it prints. *)
Inductive ending : Type :=
| Crashed
| Exited (code : N)
| Logged (added total : nat).

(** [fse.ensureFile]: a missing file is created, empty. *)
Definition ensureFile (f : file) : file :=
  match f with
  | Absent => Garbled
  | _ => f
  end.

Definition pathExists (f : file) : bool :=
  match f with
  | Absent => false
  | _ => true
  end.

Definition paste_to_json (argv : list jsstring) (f : file) : ending * file :=
  let f1 := ensureFile f in
  let f2 := if negb (pathExists f1) then Holds (VArr []) else f1 in
  match readJson f2 with
  | None => (Crashed, f2)
  | Some current =>
      let arg := join_with [10] argv in
      if JsString.eqb (trim arg) [] then (Exited 1, f2)
      else
        let rows := rows_of (lines_of arg) in
        match current with
        | VArr l =>
            match ids_of l with
            | Some ids =>
                let l' := push_new ids rows l in
                (Logged (List.length rows) (List.length l'), Holds (VArr l'))
            | None => (Crashed, f2)
            end
        | _ => (Crashed, f2)
        end
  end.

End Paste.

(** ** Helpers and bulk import of the browser code *)

Module Browser.

(** [String(s).replaceAll('&', '&amp;').replaceAll('<', '&lt;')
    .replaceAll('>', '&gt;')] *)
Definition escapeHtml (s : value) : option jsstring :=
  option_map
    (fun t => replaceAll 62 (lit "&gt;")
                (replaceAll 60 (lit "&lt;")
                   (replaceAll 38 (lit "&amp;") t)))
    (to_string s).

(** [String(s).replaceAll(q, '&quot;')], [q] being the double quote. *)
Definition escapeAttr (s : value) : option jsstring :=
  option_map (replaceAll 34 (lit "&quot;")) (to_string s).

(** The group [(\d+)] of [/^(\d+)/]: the digits the string starts with, as
    many as there are. *)
Fixpoint leading_digits (s : jsstring) : jsstring :=
  match s with
  | c :: rest => if (48 <=? c) && (c <=? 57) then c :: leading_digits rest else []
  | [] => []
  end.

(** [Number(d)] for a string of decimal digits. *)
Definition Number (d : jsstring) : Z :=
  fold_left (fun acc c => (10 * acc + Z.of_N (c - 48))%Z) d 0%Z.

(** [getYearNumber(yl)]; the inner [None] is [NaN]. *)
Definition getYearNumber (yl : value) : option (option Z) :=
  option_map
    (fun s => match leading_digits s with
              | [] => None
              | d => Some (Number d)
              end)
    (to_string yl).






End Browser.

(** ** The ids of a collection *)

(** The [studentId] of each element, in order. *)
Definition ids (l : list value) : list value :=
  List.map (fun s => field_of s StudentId) l.

(** ** Facts about strings *)

Lemma eqb_eq (a b : jsstring) : JsString.eqb a b = true <-> a = b.
Proof.
  unfold JsString.eqb. destruct (list_eq_dec N.eq_dec a b); split; congruence.
Qed.

Lemma eqb_neq (a b : jsstring) : JsString.eqb a b = false <-> a <> b.
Proof.
  unfold JsString.eqb. destruct (list_eq_dec N.eq_dec a b); split; congruence.
Qed.

Lemma eqb_refl (a : jsstring) : JsString.eqb a a = true.
Proof. now apply eqb_eq. Qed.

Lemma trimStart_keeps (s : jsstring) (c : N) :
  In c s -> is_white_space c = false -> trimStart s <> [].
Proof.
  induction s as [|d s IH]; simpl; intros Hin Hc; [easy|].
  destruct (is_white_space d) eqn:Hd; [|discriminate].
  destruct Hin as [->|Hin]; [congruence|auto].
Qed.

Lemma trim_keeps (c : N) (s : jsstring) :
  is_white_space c = false -> trim (c :: s) <> [].
Proof.
  intros Hc. unfold trim. simpl. rewrite Hc. unfold trimEnd.
  intros H. apply (f_equal (@rev N)) in H. rewrite rev_involutive in H.
  revert H. apply trimStart_keeps with (c := c); [|exact Hc].
  apply in_rev. rewrite rev_involutive. now left.
Qed.

(** A string that starts with a character other than white space is not
    missing for the loop over [required]. *)
Lemma is_missing_str (c : N) (s : jsstring) :
  is_white_space c = false -> is_missing (VStr (c :: s)) = Some false.
Proof.
  intros Hc. unfold is_missing. simpl. f_equal.
  apply eqb_neq. now apply trim_keeps.
Qed.

Lemma white_space_cases (c : N) :
  is_white_space c = true ->
  9 <= c <= 13 \/ c = 32 \/ c = 160 \/ c = 5760 \/ 8192 <= c <= 8202 \/
  8232 <= c <= 8233 \/ c = 8239 \/ c = 8287 \/ c = 12288 \/ c = 65279.
Proof.
  unfold is_white_space, in_ranges, white_space. simpl.
  rewrite !orb_true_iff, !andb_true_iff, !N.leb_le. lia.
Qed.

(** ** Facts about matching *)

Module RegExpFacts.
Import RegExp.

Lemma void_not_nullable r : void r = true -> nullable r = false.
Proof.
  induction r; simpl; intros H; try discriminate; auto.
  - apply orb_true_iff in H. apply andb_false_iff.
    destruct H; [left|right]; auto.
  - apply andb_true_iff in H. destruct H. apply orb_false_iff. auto.
Qed.

Lemma void_deriv i c r : void r = true -> void (deriv i c r) = true.
Proof.
  induction r; simpl; intros H; try discriminate; auto.
  - apply orb_true_iff in H. destruct H as [H|H].
    + rewrite (void_not_nullable _ H). simpl. now rewrite IHr1.
    + destruct (nullable r1); simpl; rewrite H, ?IHr2, ?orb_true_r; auto.
  - apply andb_true_iff in H. destruct H. now rewrite IHr1, IHr2.
Qed.

Lemma void_matches i s : forall r, void r = true -> matches i r s = false.
Proof.
  induction s as [|c s IH]; simpl; intros r H.
  - now apply void_not_nullable.
  - apply IH. now apply void_deriv.
Qed.

Lemma matches_Or i s : forall a b,
  matches i (Or a b) s = matches i a s || matches i b s.
Proof.
  induction s as [|c s IH]; simpl; intros a b; [reflexivity|apply IH].
Qed.

Lemma matches_Cat_Eps i s : forall b,
  matches i (Cat Eps b) s = matches i b s.
Proof.
  destruct s as [|c s]; simpl; intros b; [reflexivity|].
  rewrite matches_Or. now rewrite void_matches.
Qed.

(** With [i], a class matches by a member of the same canonical form. *)
Lemma char_set_matches_i rs c :
  char_set_matches true rs c = true ->
  exists m, In m (members rs) /\ canonicalize m = canonicalize c.
Proof.
  unfold char_set_matches. intros H. apply existsb_exists in H.
  destruct H as [m [Hin Heq]]. exists m. split; [easy|now apply N.eqb_eq].
Qed.

Lemma canonicalize_white_space c :
  is_white_space c = true -> canonicalize c = c.
Proof.
  intros H. apply white_space_cases in H. unfold canonicalize.
  destruct (97 <=? c) eqn:H1; destruct (c <=? 122) eqn:H2; simpl; auto.
  apply N.leb_le in H1, H2. lia.
Qed.

(** A class none of whose members is, canonically, white space accepts no
    white space under [i]. *)
Lemma char_set_i_not_white_space rs c :
  forallb (fun m => negb (is_white_space (canonicalize m))) (members rs) = true ->
  char_set_matches true rs c = true ->
  is_white_space c = false.
Proof.
  intros Hall H. apply char_set_matches_i in H. destruct H as [m [Hin Hm]].
  rewrite forallb_forall in Hall. specialize (Hall m Hin).
  destruct (is_white_space c) eqn:Hc; [|reflexivity].
  rewrite Hm, (canonicalize_white_space _ Hc), Hc in Hall. discriminate.
Qed.

(** [matches] decides membership in the language of the pattern. *)

Lemma nullable_in_lang i r : nullable r = true <-> in_lang i r [].
Proof.
  split.
  - induction r; simpl; intros H; try discriminate.
    + constructor.
    + apply andb_true_iff in H. destruct H.
      change (@nil N) with (@nil N ++ []). constructor; auto.
    + apply orb_true_iff in H.
      destruct H; [apply in_Or_left|apply in_Or_right]; auto.
    + constructor.
  - induction r; simpl; intros H; inversion H; subst; auto.
    + match goal with E : _ ++ _ = [] |- _ =>
        apply app_eq_nil in E; destruct E; subst
      end.
      apply andb_true_iff. auto.
    + apply orb_true_iff. auto.
    + apply orb_true_iff. auto.
Qed.

Lemma star_starts i a c s :
  in_lang i (Star a) (c :: s) ->
  exists s1 s2,
    s = s1 ++ s2 /\ in_lang i a (c :: s1) /\ in_lang i (Star a) s2.
Proof.
  intros H. remember (Star a) as r eqn:Hr. remember (c :: s) as w eqn:Hw.
  revert s Hw. induction H; intros s' Hw; try discriminate.
  inversion Hr; subst. destruct s as [|d s].
  - simpl in Hw. apply IHin_lang2; auto.
  - simpl in Hw. inversion Hw; subst. eauto.
Qed.

Lemma cat_splits i a b w :
  in_lang i (Cat a b) w ->
  exists s t, w = s ++ t /\ in_lang i a s /\ in_lang i b t.
Proof. intros H. inversion H; subst. eauto. Qed.

Lemma or_sides i a b w :
  in_lang i (Or a b) w -> in_lang i a w \/ in_lang i b w.
Proof. intros H. inversion H; subst; auto. Qed.

Lemma in_Cat_cons i a b c s t :
  in_lang i a (c :: s) -> in_lang i b t -> in_lang i (Cat a b) (c :: s ++ t).
Proof.
  intros Ha Hb. change (c :: s ++ t) with ((c :: s) ++ t). now constructor.
Qed.

Lemma deriv_in_lang i c r : forall s,
  in_lang i (deriv i c r) s <-> in_lang i r (c :: s).
Proof.
  induction r as [| |rs|a IHa b IHb|a IHa b IHb|a IHa]; intros s; simpl.
  - split; intros H; inversion H.
  - split; intros H; inversion H.
  - destruct (char_set_matches i rs c) eqn:Hm; split; intros H;
      inversion H; subst.
    + now constructor.
    + constructor.
    + congruence.
  - split.
    + intros H. destruct (nullable a) eqn:Hn.
      * apply or_sides in H. destruct H as [H|H].
        -- apply cat_splits in H. destruct H as [s1 [s2 [-> [H1 H2]]]].
           apply in_Cat_cons; [now apply IHa|assumption].
        -- change (c :: s) with ([] ++ c :: s).
           constructor; [now apply nullable_in_lang|now apply IHb].
      * apply cat_splits in H. destruct H as [s1 [s2 [-> [H1 H2]]]].
        apply in_Cat_cons; [now apply IHa|assumption].
    + intros H. apply cat_splits in H. destruct H as [s1 [s2 [E [H1 H2]]]].
      destruct s1 as [|d s1]; simpl in E.
      * subst s2. apply (nullable_in_lang i) in H1. rewrite H1.
        apply in_Or_right. now apply IHb.
      * injection E as Hd Hs. subst d s.
        assert (Hc : in_lang i (Cat (deriv i c a) b) (s1 ++ s2))
          by (constructor; [now apply IHa|assumption]).
        destruct (nullable a); [now apply in_Or_left|assumption].
  - split; intros H; apply or_sides in H; destruct H as [H|H].
    + apply in_Or_left. now apply IHa.
    + apply in_Or_right. now apply IHb.
    + apply in_Or_left. now apply IHa.
    + apply in_Or_right. now apply IHb.
  - split.
    + intros H. apply cat_splits in H. destruct H as [s1 [s2 [-> [H1 H2]]]].
      change (c :: s1 ++ s2) with ((c :: s1) ++ s2).
      constructor; [now apply IHa|assumption].
    + intros H. apply star_starts in H.
      destruct H as [s1 [s2 [-> [H1 H2]]]].
      constructor; [now apply IHa|assumption].
Qed.

Theorem matches_in_lang i s : forall r,
  matches i r s = true <-> in_lang i r s.
Proof.
  induction s as [|c s IH]; intros r; simpl.
  - apply nullable_in_lang.
  - rewrite IH. apply deriv_in_lang.
Qed.

End RegExpFacts.

(** ** First characters of the accepted strings *)

Section Heads.
Import RegExp RegExpFacts.

Local Arguments char_set_matches : simpl never.

Lemma gmail_head s :
  RegExp.test GMAIL_RE s = true ->
  exists c s', s = c :: s' /\ is_white_space c = false.
Proof.
  destruct s as [|c s]; [discriminate|]. intros H. exists c, s.
  split; [reflexivity|]. unfold RegExp.test in H. simpl in H.
  match type of H with
  | context [char_set_matches true ?rs c] =>
      destruct (char_set_matches true rs c) eqn:Hc
  end.
  - revert Hc. apply char_set_i_not_white_space. now vm_compute.
  - rewrite void_matches in H by reflexivity. discriminate.
Qed.

Lemma in_upper_not_white_space c :
  in_ranges [(65, 90)] c = true -> is_white_space c = false.
Proof.
  unfold in_ranges. simpl. rewrite orb_false_r, andb_true_iff, !N.leb_le.
  intros H. destruct (is_white_space c) eqn:Hc; [|reflexivity].
  apply white_space_cases in Hc. lia.
Qed.

Lemma in_digit_not_white_space c :
  in_ranges [(48, 57)] c = true -> is_white_space c = false.
Proof.
  unfold in_ranges. simpl. rewrite orb_false_r, andb_true_iff, !N.leb_le.
  intros H. destruct (is_white_space c) eqn:Hc; [|reflexivity].
  apply white_space_cases in Hc. lia.
Qed.

Lemma student_id_head s :
  RegExp.test STUDENT_ID_RE s = true ->
  exists c s', s = c :: s' /\ is_white_space c = false.
Proof.
  destruct s as [|c s]; [discriminate|]. intros H. exists c, s.
  split; [reflexivity|]. unfold RegExp.test in H. simpl in H.
  match type of H with
  | context [char_set_matches false ?rs c] =>
      destruct (char_set_matches false rs c) eqn:Hc
  end.
  - now apply in_upper_not_white_space.
  - rewrite void_matches in H by reflexivity. discriminate.
Qed.

Lemma num_year_head s :
  RegExp.test NUM_YEAR_RE s = true ->
  exists c s', s = c :: s' /\ is_white_space c = false.
Proof.
  destruct s as [|c s]; [discriminate|]. intros H. exists c, s.
  split; [reflexivity|]. unfold RegExp.test in H. simpl in H.
  match type of H with
  | context [char_set_matches false ?rs c] =>
      destruct (char_set_matches false rs c) eqn:Hc
  end.
  - now apply in_digit_not_white_space.
  - rewrite void_matches in H by reflexivity. discriminate.
Qed.

Lemma ordinal_head s :
  RegExp.test ORDINAL_RE s = true ->
  exists c s', s = c :: s' /\ is_white_space c = false.
Proof.
  destruct s as [|c s]; [discriminate|]. intros H. exists c, s.
  split; [reflexivity|]. unfold RegExp.test in H. simpl in H.
  match type of H with
  | context [char_set_matches true ?rs c] =>
      destruct (char_set_matches true rs c) eqn:Hc
  end.
  - revert Hc. apply char_set_i_not_white_space. now vm_compute.
  - rewrite void_matches in H by reflexivity. discriminate.
Qed.

End Heads.

(** ** The store *)

Lemma readStudents_current SEED f :
  readStudents SEED f = (Next (current SEED f), Holds (current SEED f)).
Proof.
  destruct f as [| |v]; try reflexivity.
  destruct v as [| | | | |l|]; try reflexivity.
  destruct l; reflexivity.
Qed.

(** A file that holds a non-empty array is the collection the routes work
    on, and reading leaves it alone. *)
Lemma current_nonempty SEED l :
  l <> [] -> current SEED (Holds (VArr l)) = VArr l.
Proof. destruct l; [congruence|reflexivity]. Qed.

(** ** Facts about values and lists *)

Lemma get_opt_get v k : nullish v = false -> get v k = Some (opt_get v k).
Proof. destruct v; simpl; intros H; try discriminate; reflexivity. Qed.

Lemma object_not_nullish v : is_object v = true -> nullish v = false.
Proof. destruct v; simpl; congruence. Qed.

Lemma strict_eq_str v id : strict_eq v (VStr id) = true <-> v = VStr id.
Proof.
  destruct v; simpl; split; intros H; try discriminate.
  - apply eqb_eq in H. now subst.
  - inversion H. apply eqb_refl.
Qed.

Lemma same_id_object id s :
  nullish s = false ->
  same_id id s = Some (strict_eq (field_of s StudentId) id).
Proof.
  intros H. unfold same_id, field_of. now rewrite get_opt_get by assumption.
Qed.

Lemma run_checks_app payload a b :
  run_checks payload (a ++ b)
  = match run_checks payload a with
    | Passes => run_checks payload b
    | v => v
    end.
Proof.
  induction a as [|c a IH]; simpl; [reflexivity|].
  destruct (fails c payload) as [[|]|]; auto.
Qed.

Lemma run_checks_first payload before c after :
  (forall c', In c' before -> fails c' payload = Some false) ->
  fails c payload = Some true ->
  run_checks payload (before ++ c :: after) = Rejects c.
Proof.
  induction before as [|b before IH]; simpl; intros Hb Hc.
  - now rewrite Hc.
  - rewrite (Hb b) by now left. apply IH; auto.
Qed.

Lemma run_checks_passes payload cs :
  forallb (fun c => passes c payload) cs = true ->
  run_checks payload cs = Passes.
Proof.
  induction cs as [|c cs IH]; simpl; [reflexivity|].
  intros H. apply andb_true_iff in H. destruct H as [Hc Hcs].
  unfold passes in Hc. destruct (fails c payload) as [[|]|]; try discriminate.
  auto.
Qed.

(** A verdict, read backwards. *)
Lemma run_checks_rejects payload cs c :
  run_checks payload cs = Rejects c -> In c cs /\ fails c payload = Some true.
Proof.
  induction cs as [|d cs IH]; simpl; [discriminate|].
  destruct (fails d payload) as [[|]|] eqn:Hd; intros H; try discriminate.
  - inversion H; subst. auto.
  - destruct (IH H). auto.
Qed.

Lemma some_of_none_match cb l :
  Forall (fun s => cb s = Some false) l -> some_of cb l = Some false.
Proof.
  induction 1 as [|s l Hs _ IH]; simpl; [reflexivity|]. now rewrite Hs.
Qed.

Lemma some_of_match cb l1 s l2 :
  Forall (fun x => cb x <> None) l1 -> cb s = Some true ->
  some_of cb (l1 ++ s :: l2) = Some true.
Proof.
  induction 1 as [|x l1 Hx _ IH]; simpl; intros Hs.
  - now rewrite Hs.
  - destruct (cb x) as [[|]|]; [reflexivity|auto|congruence].
Qed.

Lemma findIndex_from_found cb l1 s l2 i :
  Forall (fun x => cb x = Some false) l1 -> cb s = Some true ->
  findIndex_from cb (l1 ++ s :: l2) i = Some (i + Z.of_nat (List.length l1))%Z.
Proof.
  intros H. revert i. induction H as [|x l1 Hx _ IH]; simpl; intros i Hs.
  - rewrite Hs. f_equal. lia.
  - rewrite Hx, IH by assumption. f_equal. lia.
Qed.

Lemma findIndex_from_absent cb l i :
  Forall (fun x => cb x = Some false) l ->
  findIndex_from cb l i = Some (-1)%Z.
Proof.
  intros H. revert i. induction H as [|x l Hx _ IH]; simpl; intros i;
    [reflexivity|]. now rewrite Hx.
Qed.

(** What [findIndex] answers, read backwards: -1 after a full scan without a
    match, or the position of the first match. *)
Lemma findIndex_from_inv cb l : forall i j,
  (0 <= i)%Z -> findIndex_from cb l i = Some j ->
  (j = (-1)%Z /\ Forall (fun x => cb x = Some false) l) \/
  (exists l1 s l2, l = l1 ++ s :: l2 /\ j = (i + Z.of_nat (List.length l1))%Z /\
                   cb s = Some true /\ Forall (fun x => cb x = Some false) l1).
Proof.
  induction l as [|x l IH]; simpl; intros i j Hi H.
  - left. split; [congruence|constructor].
  - destruct (cb x) as [[|]|] eqn:Hx; try discriminate.
    + right. exists [], x, l. simpl. repeat split; auto.
      inversion H. lia.
    + destruct (IH (i + 1)%Z j ltac:(lia) H) as [[Hj Hall]|[l1 [s [l2 [Hl [Hj [Hs Hall]]]]]]].
      * left. split; [easy|]. now constructor.
      * right. exists (x :: l1), s, l2. simpl. subst l.
        repeat split; auto. lia.
Qed.

Lemma skipn_prefix {A} (l1 : list A) x l2 :
  skipn (List.length l1) (l1 ++ x :: l2) = x :: l2.
Proof. induction l1; simpl; auto. Qed.

Lemma firstn_prefix {A} (l1 : list A) x l2 :
  firstn (List.length l1) (l1 ++ x :: l2) = l1.
Proof. induction l1; simpl; f_equal; auto. Qed.

Lemma skipn_past {A} (l1 : list A) x l2 :
  skipn (S (List.length l1)) (l1 ++ x :: l2) = l2.
Proof.
  induction l1 as [|a l1 IH]; [reflexivity|].
  cbn [List.length app]. rewrite skipn_cons. exact IH.
Qed.

Lemma splice1_at l1 s l2 :
  splice1 (VArr (l1 ++ s :: l2)) (Z.of_nat (List.length l1))
  = Some ([s], VArr (l1 ++ l2)).
Proof.
  unfold splice1. rewrite Nat2Z.id.
  now rewrite skipn_prefix, firstn_prefix, skipn_past.
Qed.

(** ** The routes, case by case *)

Lemma check_required_run payload fs f :
  nullish payload = false ->
  check_required payload (List.map field_name fs) f =
  match run_checks payload (List.map Presence fs) with
  | Passes => (Next tt, f)
  | Rejects c => (Answered (error 400 (message c)), f)
  | Throws => (Thrown, f)
  end.
Proof.
  intros Hp. induction fs as [|k fs IH]; [reflexivity|].
  simpl. unfold bind, lift. rewrite get_opt_get by assumption.
  change (opt_get payload (field_name k)) with (field_of payload k).
  destruct (is_missing (field_of payload k)) as [[|]|];
    [reflexivity|exact IH|reflexivity].
Qed.

(** [POST /students] in one piece: the first failing test answers 400 and
    the file is not touched; past the tests the collection is read, and the
    search for the id decides between 409 and the append. *)
Lemma post_students_cases SEED payload f :
  nullish payload = false ->
  post_students SEED payload f =
  match run_checks payload check_order with
  | Rejects c => (error 400 (message c), f)
  | Throws => (error 500 (lit "Failed to add student."), f)
  | Passes =>
      match some (current SEED f) (same_id (field_of payload StudentId)) with
      | None =>
          (error 500 (lit "Failed to add student."), Holds (current SEED f))
      | Some true =>
          (error 409 (lit "Student ID already exists."),
           Holds (current SEED f))
      | Some false =>
          match push (current SEED f) payload with
          | Some students' =>
              ({| status := 201; body := payload |}, Holds students')
          | None =>
              (error 500 (lit "Failed to add student."),
               Holds (current SEED f))
          end
      end
  end.
Proof.
  intros Hp. unfold post_students, try_catch.
  change required
    with (List.map field_name
            [StudentId; FullName; Gender; Gmail; Program; YearLevel;
             University]).
  change check_order
    with (List.map Presence
            [StudentId; FullName; Gender; Gmail; Program; YearLevel;
             University]
          ++ [GmailFormat; YearLevelFormat; StudentIdFormat]).
  rewrite run_checks_app. unfold bind at 1.
  rewrite check_required_run by assumption.
  destruct (run_checks payload (List.map Presence _)); try reflexivity.
  unfold bind, lift. rewrite !get_opt_get by assumption.
  cbn [run_checks fails]. unfold Js.test, string_of, field_of, field_name.
  destruct (to_string (opt_get payload (lit "gmail"))) as [mail|];
    [|reflexivity].
  cbn [option_map].
  destruct (RegExp.test GMAIL_RE mail); cbn [negb]; [|reflexivity].
  destruct (to_string (opt_get payload (lit "yearLevel"))) as [year|];
    [|reflexivity].
  cbn [option_map to_string].
  destruct (RegExp.test ORDINAL_RE year), (RegExp.test NUM_YEAR_RE year);
    cbn [negb andb]; try reflexivity.
  all: destruct (to_string (opt_get payload (lit "studentId"))) as [sid|];
    [|reflexivity]; cbn [option_map];
    destruct (RegExp.test STUDENT_ID_RE sid); cbn [negb]; [|reflexivity].
  all: rewrite readStudents_current;
    destruct (some (current SEED f) _) as [[|]|]; try reflexivity;
    unfold respond, writeStudents, writeJson, ret;
    destruct (push (current SEED f) payload); reflexivity.
Qed.

Lemma post_students_nullish SEED payload f :
  nullish payload = true ->
  post_students SEED payload f = (error 500 (lit "Failed to add student."), f).
Proof. destruct payload; simpl; intros H; try discriminate; reflexivity. Qed.

(** [DELETE /students/:id] in one piece. *)
Lemma delete_student_cases SEED id f :
  delete_student SEED id f =
  match findIndex (current SEED f) (same_id (VStr id)) with
  | None =>
      (error 500 (lit "Failed to delete student."), Holds (current SEED f))
  | Some idx =>
      if (idx =? -1)%Z
      then (error 404 (lit "Not found"), Holds (current SEED f))
      else
        match splice1 (current SEED f) idx with
        | Some spliced =>
            ({| status := 200; body := first_of (fst spliced) |},
             Holds (snd spliced))
        | None =>
            (error 500 (lit "Failed to delete student."),
             Holds (current SEED f))
        end
  end.
Proof.
  unfold delete_student, try_catch, bind. rewrite readStudents_current.
  unfold lift.
  destruct (findIndex (current SEED f) (same_id (VStr id))) as [idx|];
    [|reflexivity].
  destruct (idx =? -1)%Z; [reflexivity|].
  destruct (splice1 (current SEED f) idx); reflexivity.
Qed.

Lemma get_students_current SEED f :
  get_students SEED f
  = ({| status := 200; body := current SEED f |}, Holds (current SEED f)).
Proof.
  unfold get_students, try_catch, bind. now rewrite readStudents_current.
Qed.

Lemma current_seed SEED : current SEED (Holds SEED) = SEED.
Proof.
  destruct SEED as [| | | | |l|]; try reflexivity. destruct l; reflexivity.
Qed.

Lemma strict_eq_eq a b : strict_eq a b = true -> a = b.
Proof.
  destruct a, b; simpl; intros H; try discriminate; try reflexivity.
  - now apply Bool.eqb_prop in H; subst.
  - now apply Z.eqb_eq in H; subst.
  - now apply eqb_eq in H; subst.
Qed.

(** No record of [l] carries the id: the search of both routes finds none. *)
Lemma same_id_none id l :
  records l ->
  (forall s, In s l -> field_of s StudentId <> id) ->
  Forall (fun s => same_id id s = Some false) l.
Proof.
  intros Hrec Hfresh. apply Forall_forall. intros s Hs.
  unfold records in Hrec. rewrite Forall_forall in Hrec.
  rewrite same_id_object by (apply object_not_nullish; auto).
  f_equal. destruct (strict_eq (field_of s StudentId) id) eqn:E; [|reflexivity].
  apply strict_eq_eq in E. now apply Hfresh in Hs.
Qed.

(** ** From the table of the specification to the tests of the server *)

Lemma not_blank_present s :
  JsString.eqb (trim s) [] = false -> is_missing (VStr s) = Some false.
Proof.
  intros H. unfold is_missing. simpl. rewrite H.
  destruct s; [discriminate H|reflexivity].
Qed.

Lemma head_present s :
  (exists c s', s = c :: s' /\ is_white_space c = false) ->
  is_missing (VStr s) = Some false.
Proof. intros [c [s' [-> Hc]]]. now apply is_missing_str. Qed.

Lemma satisfies_str payload k :
  Spec.satisfies payload k = true ->
  exists s, field_of payload k = VStr s /\ Spec.rule k s = true.
Proof.
  unfold Spec.satisfies. destruct (field_of payload k); try discriminate.
  intros H. eauto.
Qed.

Lemma field_str_not_nullish payload k s :
  field_of payload k = VStr s -> nullish payload = false.
Proof. destruct payload; simpl; try reflexivity; discriminate. Qed.

Lemma spec_valid_passes payload :
  Spec.valid payload = true ->
  Spec.not_blank payload FullName = true ->
  Spec.not_blank payload Gender = true ->
  passes_validation payload = true.
Proof.
  unfold Spec.valid, Spec.table. simpl forallb.
  rewrite !andb_true_iff.
  intros [Hid [Hname [Hmail [Hprog [Huniv [Hyear [Hgen _]]]]]]] Hnb1 Hnb2.
  apply satisfies_str in Hid, Hname, Hmail, Hprog, Huniv, Hyear, Hgen.
  destruct Hid as [id [Eid Rid]], Hname as [name [Ename Rname]],
    Hmail as [mail [Email Rmail]], Hprog as [prog [Eprog Rprog]],
    Huniv as [univ [Euniv Runiv]], Hyear as [year [Eyear Ryear]],
    Hgen as [gen [Egen Rgen]].
  unfold Spec.not_blank in Hnb1, Hnb2. rewrite Ename in Hnb1. rewrite Egen in Hnb2.
  simpl in Hnb1, Hnb2, Rid, Rmail, Rprog, Runiv, Ryear.
  apply negb_true_iff in Hnb1, Hnb2, Rprog, Runiv.
  assert (Hy : exists c s', year = c :: s' /\ is_white_space c = false).
  { apply orb_true_iff in Ryear.
    destruct Ryear; [now apply num_year_head|now apply ordinal_head]. }
  unfold passes_validation, check_order. cbn [forallb]. unfold passes, fails.
  rewrite Eid, Ename, Email, Eprog, Euniv, Eyear, Egen.
  unfold Js.test. cbn [to_string option_map].
  rewrite Rid, Rmail.
  rewrite (head_present _ (student_id_head _ Rid)).
  rewrite (head_present _ (gmail_head _ Rmail)).
  rewrite (head_present _ Hy).
  rewrite !not_blank_present by assumption.
  apply orb_true_iff in Ryear. destruct Ryear as [R|R]; rewrite R;
    simpl; rewrite ?andb_false_r; reflexivity.
Qed.

(** [^\d+$] accepts the non-empty strings of decimal digits. *)
Section Digits.
Import RegExp RegExpFacts.

Local Arguments char_set_matches : simpl never.

Lemma digit_class c : char_set_matches false [(48, 57)] c = Spec.is_digit c.
Proof.
  unfold char_set_matches, in_ranges, Spec.is_digit. simpl.
  apply orb_false_r.
Qed.

Lemma star_digit s : matches false (Star digit) s = forallb Spec.is_digit s.
Proof.
  induction s as [|c s IH]; [reflexivity|].
  simpl. unfold digit at 1. simpl deriv. rewrite digit_class.
  destruct (Spec.is_digit c); simpl.
  - now rewrite matches_Cat_Eps.
  - now apply void_matches.
Qed.

Lemma num_year_all_digits s :
  RegExp.test NUM_YEAR_RE s = Spec.all_digits s.
Proof.
  unfold RegExp.test, Spec.all_digits. simpl.
  destruct s as [|c s]; [reflexivity|].
  simpl. unfold digit at 1. simpl deriv. rewrite digit_class.
  destruct (Spec.is_digit c); simpl.
  - rewrite matches_Cat_Eps. apply star_digit.
  - now apply void_matches.
Qed.

End Digits.

Lemma check_eq_dec (a b : check) : {a = b} + {a <> b}.
Proof. decide equality. decide equality. Qed.

(** The first failing test decides the answer, and its message names the
    field it tests. *)
Lemma create_first_failing SEED payload f before after c :
  nullish payload = false ->
  check_order = before ++ c :: after ->
  (forall c', In c' before -> fails c' payload = Some false) ->
  fails c payload = Some true ->
  post_students SEED payload f = (error 400 (message c), f) /\
  names (message c) (check_field c) = true.
Proof.
  intros Hn Horder Hbefore Hc. split.
  - rewrite post_students_cases by assumption.
    rewrite Horder. now rewrite run_checks_first.
  - unfold names. apply existsb_exists. exists c. split.
    + rewrite Horder. apply in_or_app. right. now left.
    + unfold field_eqb. now rewrite !eqb_refl.
Qed.

(** A 400 of the create route is the message of a failing test, and the file
    is the one the request found. *)
Lemma create_400_is_a_failing_check SEED payload f r f' :
  post_students SEED payload f = (r, f') ->
  status r = 400 ->
  f' = f /\
  exists c, In c check_order /\ fails c payload = Some true /\
            r = error 400 (message c).
Proof.
  intros Hpost Hstatus.
  destruct (nullish payload) eqn:Hn.
  - rewrite post_students_nullish in Hpost by assumption.
    inversion Hpost; subst. discriminate.
  - rewrite post_students_cases in Hpost by assumption.
    destruct (run_checks payload check_order) as [|c|] eqn:Hrun.
    + destruct (some _ _) as [[|]|];
        [| destruct (push _ _) |]; inversion Hpost; subst; discriminate.
    + inversion Hpost; subst. split; [reflexivity|].
      apply run_checks_rejects in Hrun. destruct Hrun. eauto.
    + inversion Hpost; subst. discriminate.
Qed.

(** The chat route answers 400 when the collection it reads is empty. *)
Lemma chat_no_data SEED KEY axios body f :
  current SEED f = VArr [] ->
  status (fst (post_chat SEED KEY axios body f)) = 400.
Proof.
  intros Hcur. unfold post_chat.
  destruct (negb (truthy (message_of body))
            || negb (is_string (message_of body))); [reflexivity|].
  unfold try_catch, bind. rewrite readStudents_current, Hcur. reflexivity.
Qed.

(** The collection read is empty only when the seed is. *)
Lemma current_empty SEED f :
  current SEED f = VArr [] -> SEED = VArr [].
Proof.
  destruct f as [| |v]; simpl; auto.
  destruct v as [| | | | |l|]; try discriminate.
  destruct l; [auto|discriminate].
Qed.

(** ** The model at work *)

Example gmail_any_case :
  RegExp.test GMAIL_RE (lit "Chelsea.Greer+pe@GMail.COM") = true.
Proof. reflexivity. Qed.

Example gmail_other_domain :
  RegExp.test GMAIL_RE (lit "chelsea@gmail.com.ph") = false.
Proof. reflexivity. Qed.

Example ordinal_any_case_and_spaces :
  RegExp.test ORDINAL_RE (lit "2ND" ++ [32; 160; 9] ++ lit "year") = true.
Proof. reflexivity. Qed.

Example ordinal_one_digit_only :
  RegExp.test ORDINAL_RE (lit "10th Year") = false.
Proof. reflexivity. Qed.

Example student_id_letters :
  RegExp.test STUDENT_ID_RE (lit "ABCD-113-00001") = true /\
  RegExp.test STUDENT_ID_RE (lit "ABCDE-113-00001") = false /\
  RegExp.test STUDENT_ID_RE (lit "bp-113-00001") = false.
Proof. repeat split; reflexivity. Qed.

Example trim_both_ends : trim (lit "  BS Physics " ++ [10]) = lit "BS Physics".
Proof. reflexivity. Qed.

Example to_string_array :
  to_string (VArr [VNum (-12); VNull; VStr (lit "a"); VArr [VBool true; VNum 0]])
  = Some (lit "-12,,a,true,0").
Proof. reflexivity. Qed.

(** An array of one string converts to that string: it passes the tests of
    the formats, and is never [===] to a stored id. *)
Example array_id_is_never_taken :
  post_students (VArr [chelsea])
    (VObj [ (lit "studentId", VArr [VStr (lit "BP-113-00001")]);
            (lit "fullName", VStr (lit "Chelsea Greer"));
            (lit "gender", VStr (lit "Female"));
            (lit "gmail", VStr (lit "chelseagreer@gmail.com"));
            (lit "program", VStr (lit "BS Physics"));
            (lit "yearLevel", VNum 5);
            (lit "university", VStr (lit "Caraga State University")) ])
    (Holds (VArr [chelsea]))
  = ({| status := 201;
        body :=
          VObj [ (lit "studentId", VArr [VStr (lit "BP-113-00001")]);
                 (lit "fullName", VStr (lit "Chelsea Greer"));
                 (lit "gender", VStr (lit "Female"));
                 (lit "gmail", VStr (lit "chelseagreer@gmail.com"));
                 (lit "program", VStr (lit "BS Physics"));
                 (lit "yearLevel", VNum 5);
                 (lit "university", VStr (lit "Caraga State University")) ] |},
     Holds (VArr [ chelsea;
                   VObj [ (lit "studentId", VArr [VStr (lit "BP-113-00001")]);
                          (lit "fullName", VStr (lit "Chelsea Greer"));
                          (lit "gender", VStr (lit "Female"));
                          (lit "gmail", VStr (lit "chelseagreer@gmail.com"));
                          (lit "program", VStr (lit "BS Physics"));
                          (lit "yearLevel", VNum 5);
                          (lit "university",
                           VStr (lit "Caraga State University")) ] ])).
Proof. reflexivity. Qed.

(** A field that is an object with a property [toString] makes [String]
    throw inside the loop over [required]; a [null] among the stored records
    makes the search for the id throw, after the file has been read. *)
Example own_toString_is_caught :
  post_students (VArr [chelsea])
    (VObj [ (lit "studentId", VObj [ (lit "toString", VNum 1) ]) ])
    (Holds (VArr [chelsea]))
  = (error 500 (lit "Failed to add student."), Holds (VArr [chelsea])).
Proof. reflexivity. Qed.

Example null_record_is_caught :
  delete_student (VArr [chelsea]) (lit "BP-113-00001")
                 (Holds (VArr [VNull; chelsea]))
  = (error 500 (lit "Failed to delete student."),
     Holds (VArr [VNull; chelsea])).
Proof. reflexivity. Qed.

(** The examples of section 8 of the specification. *)
Example create_then_create_again :
  post_students (VArr [nicolas]) chelsea (Holds (VArr [nicolas]))
  = ({| status := 201; body := chelsea |}, Holds (VArr [nicolas; chelsea])) /\
  post_students (VArr [nicolas]) chelsea (Holds (VArr [nicolas; chelsea]))
  = (error 409 (lit "Student ID already exists."),
     Holds (VArr [nicolas; chelsea])).
Proof. split; reflexivity. Qed.

Example create_year_five :
  post_students (VArr [nicolas]) year_five (Holds (VArr [nicolas]))
  = (error 400 (message YearLevelFormat), Holds (VArr [nicolas])) /\
  names (message YearLevelFormat) YearLevel = true.
Proof. split; reflexivity. Qed.

(** A gender of one space is not empty, and is missing for the server. *)
Example create_blank_gender :
  Spec.valid blank_gender = true /\
  post_students (VArr [nicolas]) blank_gender (Holds (VArr [nicolas]))
  = (error 400 (lit "Missing field: gender"), Holds (VArr [nicolas])).
Proof. split; reflexivity. Qed.

(** ** Seeding *)

(** C7. When the data file is absent or holds the empty array, the list
    route replaces it by the bundled seed, as a whole, and answers the seed;
    a second call answers the same collection and leaves the file as it
    is. *)
Theorem list_seeding_idempotent (SEED : value) (f : file) :
  f = Absent \/ f = Holds (VArr []) ->
  get_students SEED f = ({| status := 200; body := SEED |}, Holds SEED) /\
  get_students SEED (Holds SEED)
  = ({| status := 200; body := SEED |}, Holds SEED).
Proof.
  intros Hf. split.
  - destruct Hf as [-> | ->]; reflexivity.
  - now rewrite get_students_current, current_seed.
Qed.

Lemma list_seeding_idempotent_witness :
  get_students (VArr [chelsea; nicolas]) (Holds (VArr []))
  = ({| status := 200; body := VArr [chelsea; nicolas] |},
     Holds (VArr [chelsea; nicolas])) /\
  get_students (VArr [chelsea; nicolas]) (Holds (VArr [chelsea; nicolas]))
  = ({| status := 200; body := VArr [chelsea; nicolas] |},
     Holds (VArr [chelsea; nicolas])).
Proof.
  apply (list_seeding_idempotent (VArr [chelsea; nicolas]) (Holds (VArr []))).
  right. reflexivity.
Defined.

(** ** Create *)

(** C9. The create route neither projects nor cleans the request body: when
    it answers 201, the body of the answer is the payload itself, whatever
    properties it has, and the file holds the collection that was read with
    that same payload appended. *)
Theorem create_stores_payload_verbatim
    (SEED payload : value) (f f' : file) (r : response) :
  post_students SEED payload f = (r, f') ->
  status r = 201 ->
  body r = payload /\
  exists l, current SEED f = VArr l /\ f' = Holds (VArr (l ++ [payload])).
Proof.
  intros Hpost Hstatus.
  destruct (nullish payload) eqn:Hn.
  - rewrite post_students_nullish in Hpost by assumption.
    inversion Hpost; subst. discriminate.
  - rewrite post_students_cases in Hpost by assumption.
    destruct (run_checks payload check_order).
    2,3: inversion Hpost; subst; discriminate.
    destruct (some _ _) as [[|]|].
    1,3: inversion Hpost; subst; discriminate.
    destruct (current SEED f) as [| | | | |l|] eqn:Hc; simpl in Hpost;
      try (inversion Hpost; subst; discriminate).
    inversion Hpost; subst. split; [reflexivity|]. now exists l.
Qed.

Lemma create_stores_payload_verbatim_witness :
  body {| status := 201; body := chelsea_extra |} = chelsea_extra /\
  exists l, current (VArr [nicolas]) (Holds (VArr [nicolas])) = VArr l /\
            Holds (VArr [nicolas; chelsea_extra])
            = Holds (VArr (l ++ [chelsea_extra])).
Proof.
  apply (create_stores_payload_verbatim
           (VArr [nicolas]) chelsea_extra (Holds (VArr [nicolas]))
           (Holds (VArr [nicolas; chelsea_extra]))
           {| status := 201; body := chelsea_extra |}).
  - vm_compute. reflexivity.
  - reflexivity.
Defined.

(** C1, as the code has it. A candidate that satisfies the seven rules of
    the table, whose [fullName] and [gender] are not blank, and whose
    [studentId] differs from that of every record of the collection the route
    reads (the stored collection, or the seed in place of a missing or empty
    one) is answered 201 with the record; the file then holds the collection
    with the record appended, the list route answers that collection, and
    the record is in it exactly once. *)
Theorem create_then_list_once
    (SEED payload : value) (f : file) (l : list value) :
  Spec.valid payload = true ->
  Spec.not_blank payload FullName = true ->
  Spec.not_blank payload Gender = true ->
  current SEED f = VArr l ->
  records l ->
  (forall s, In s l -> field_of s StudentId <> field_of payload StudentId) ->
  post_students SEED payload f
  = ({| status := 201; body := payload |}, Holds (VArr (l ++ [payload]))) /\
  get_students SEED (Holds (VArr (l ++ [payload])))
  = ({| status := 200; body := VArr (l ++ [payload]) |},
     Holds (VArr (l ++ [payload]))) /\
  occurs_once payload (l ++ [payload]).
Proof.
  intros Hvalid Hname Hgender Hcur Hrec Hfresh.
  assert (Hpass := spec_valid_passes _ Hvalid Hname Hgender).
  assert (Hn : nullish payload = false).
  { unfold Spec.valid in Hvalid. simpl in Hvalid.
    apply andb_true_iff in Hvalid. destruct Hvalid as [H _].
    apply satisfies_str in H. destruct H as [s [H _]].
    now apply field_str_not_nullish in H. }
  split; [|split].
  - rewrite post_students_cases by assumption.
    rewrite run_checks_passes by exact Hpass. rewrite Hcur. simpl.
    rewrite some_of_none_match by (apply same_id_none; assumption).
    reflexivity.
  - rewrite get_students_current.
    rewrite current_nonempty; [reflexivity|]. now destruct l.
  - exists l, []. repeat split; auto.
    intros Hin. now apply (Hfresh _ Hin).
Qed.

Lemma create_then_list_once_witness :
  post_students (VArr [nicolas]) chelsea (Holds (VArr [nicolas]))
  = ({| status := 201; body := chelsea |},
     Holds (VArr ([nicolas] ++ [chelsea]))) /\
  get_students (VArr [nicolas]) (Holds (VArr ([nicolas] ++ [chelsea])))
  = ({| status := 200; body := VArr ([nicolas] ++ [chelsea]) |},
     Holds (VArr ([nicolas] ++ [chelsea]))) /\
  occurs_once chelsea ([nicolas] ++ [chelsea]).
Proof.
  apply (create_then_list_once
           (VArr [nicolas]) chelsea (Holds (VArr [nicolas])) [nicolas]).
  - vm_compute. reflexivity.
  - vm_compute. reflexivity.
  - vm_compute. reflexivity.
  - reflexivity.
  - repeat constructor.
  - intros s [<-|[]]. vm_compute. discriminate.
Defined.

(** C1 fails as stated, twice over. A candidate whose [fullName] is two
    spaces satisfies all seven rules and has a fresh id, and is answered 400:
    the server wants every field to be non-blank. A valid candidate sent while
    the stored collection is empty, with an id the seed carries, is answered
    409: the seed has replaced the empty collection before the id is looked
    up. *)
Lemma create_valid_candidate_rejected :
  (Spec.valid blank_name = true /\
   (forall s, In s [nicolas] ->
              field_of s StudentId <> field_of blank_name StudentId) /\
   post_students (VArr [nicolas]) blank_name (Holds (VArr [nicolas]))
   = (error 400 (lit "Missing field: fullName"), Holds (VArr [nicolas]))) /\
  (Spec.valid chelsea = true /\
   (forall s, In s [] ->
              field_of s StudentId <> field_of chelsea StudentId) /\
   post_students (VArr [chelsea]) chelsea (Holds (VArr []))
   = (error 409 (lit "Student ID already exists."), Holds (VArr [chelsea]))).
Proof.
  repeat split; try (vm_compute; reflexivity).
  - intros s [<-|[]]. vm_compute. discriminate.
  - intros s [].
Qed.

(** C2, at an input on which the code departs from it. The [fullName]
    "Chelsea Gr33r" is not empty and does not match [^[A-Za-z ]{2,}$], the
    other six fields satisfy their rules and the id is new. The form handler
    of the browser code holds the data back with its complaint about the
    name; the server has no test of the name beyond presence, answers 201
    and stores the record. *)
Theorem create_accepts_digits_in_fullName :
  Spec.satisfies digits_in_name FullName = false /\
  Spec.violations digits_in_name = [FullName] /\
  Client.errors digits_in_name_form
  = [lit "Full Name must be letters/spaces."] /\
  post_students (VArr [nicolas]) digits_in_name (Holds (VArr [nicolas]))
  = ({| status := 201; body := digits_in_name |},
     Holds (VArr [nicolas; digits_in_name])).
Proof. repeat split; vm_compute; reflexivity. Qed.

(** C4, as the code has it. When a candidate fails one of the tests of the
    create route, the answer is 400 with the message of the first failing
    test in the order in which the server makes them (presence of
    [studentId], [fullName], [gender], [gmail], [program], [yearLevel],
    [university], then the format of [gmail], of [yearLevel], of
    [studentId]); the message names the field tested, and the file is left
    as it was. *)
Theorem create_reports_first_failing_check
    (SEED payload : value) (f : file) (before after : list check) (c : check) :
  nullish payload = false ->
  check_order = before ++ c :: after ->
  (forall c', In c' before -> fails c' payload = Some false) ->
  fails c payload = Some true ->
  post_students SEED payload f = (error 400 (message c), f) /\
  names (message c) (check_field c) = true.
Proof. apply create_first_failing. Qed.

Lemma create_reports_first_failing_check_witness :
  post_students (VArr [nicolas]) bad_id_and_gmail (Holds (VArr [nicolas]))
  = (error 400 (message GmailFormat), Holds (VArr [nicolas])) /\
  names (message GmailFormat) (check_field GmailFormat) = true.
Proof.
  apply (create_reports_first_failing_check
           (VArr [nicolas]) bad_id_and_gmail (Holds (VArr [nicolas]))
           [ Presence StudentId; Presence FullName; Presence Gender;
             Presence Gmail; Presence Program; Presence YearLevel;
             Presence University ]
           [ YearLevelFormat; StudentIdFormat ] GmailFormat).
  - reflexivity.
  - reflexivity.
  - intros c' H. simpl in H.
    repeat (destruct H as [<-|H]; [vm_compute; reflexivity|]). destruct H.
  - vm_compute. reflexivity.
Defined.

(** C4 fails as stated. The candidate violates the rules of [studentId] and
    of [gmail]; [studentId] comes first in the table of the specification,
    and the answer is the message about the Gmail address, which does not
    name [studentId]: the server tests the format of [gmail] before that of
    [studentId]. *)
Lemma create_reports_gmail_before_studentId :
  Spec.violations bad_id_and_gmail = [StudentId; Gmail] /\
  Spec.first_violation bad_id_and_gmail = Some StudentId /\
  post_students (VArr [nicolas]) bad_id_and_gmail (Holds (VArr [nicolas]))
  = (error 400 (lit "Email must be a valid Gmail address."),
     Holds (VArr [nicolas])) /\
  names (lit "Email must be a valid Gmail address.") StudentId = false /\
  names (lit "Email must be a valid Gmail address.") Gmail = true.
Proof. repeat split; vm_compute; reflexivity. Qed.

(** C5, as the code has it. A candidate that passes the tests of the create
    route and whose [studentId] is that of a record of the stored collection
    is answered 409, and the file is left as it was. *)
Theorem create_duplicate_conflict
    (SEED payload s : value) (l : list value) (id : jsstring) :
  passes_validation payload = true ->
  field_of payload StudentId = VStr id ->
  records l ->
  In s l ->
  field_of s StudentId = VStr id ->
  post_students SEED payload (Holds (VArr l))
  = (error 409 (lit "Student ID already exists."), Holds (VArr l)).
Proof.
  intros Hpass Hid Hrec Hin Hs.
  assert (Hn : nullish payload = false)
    by now apply field_str_not_nullish in Hid.
  assert (Hl : l <> []) by (intros ->; destruct Hin).
  rewrite post_students_cases by assumption.
  rewrite run_checks_passes by exact Hpass.
  rewrite current_nonempty by assumption.
  destruct (in_split _ _ Hin) as [l1 [l2 ->]]. simpl.
  unfold records in Hrec. apply Forall_app in Hrec. destruct Hrec as [H1 H2].
  inversion H2 as [|? ? Hobj _]; subst.
  rewrite some_of_match; [reflexivity| |].
  - apply Forall_forall. intros x Hx. rewrite Forall_forall in H1.
    rewrite same_id_object by (apply object_not_nullish; auto). discriminate.
  - rewrite same_id_object by now apply object_not_nullish.
    rewrite Hid, Hs. f_equal. now apply strict_eq_str.
Qed.

Lemma create_duplicate_conflict_witness :
  post_students (VArr [nicolas]) chelsea (Holds (VArr [nicolas; chelsea]))
  = (error 409 (lit "Student ID already exists."),
     Holds (VArr [nicolas; chelsea])).
Proof.
  apply (create_duplicate_conflict
           (VArr [nicolas]) chelsea chelsea [nicolas; chelsea]
           (lit "BP-113-00001")).
  - vm_compute. reflexivity.
  - reflexivity.
  - repeat constructor.
  - right. left. reflexivity.
  - reflexivity.
Defined.

(** C5 fails as stated. The candidate carries the id of a stored record and
    a Yahoo address: validation comes first, and the answer is 400, not
    409. *)
Lemma create_duplicate_invalid_is_400 :
  field_of chelsea_bad_gmail StudentId = field_of chelsea StudentId /\
  post_students (VArr [nicolas]) chelsea_bad_gmail (Holds (VArr [chelsea]))
  = (error 400 (lit "Email must be a valid Gmail address."),
     Holds (VArr [chelsea])).
Proof. split; vm_compute; reflexivity. Qed.

(** ** Delete *)

(** C6, as the code has it. On a stored collection of records: when the id
    is that of a record, the first such record is removed, the file holds the
    collection without it, and the answer is 200 with the removed record;
    when the collection is not empty and no record has the id, the answer is
    404 and the file is left as it was. *)
Theorem delete_present_or_absent
    (SEED : value) (id : jsstring) (l : list value) :
  records l ->
  (forall l1 s l2,
      l = l1 ++ s :: l2 ->
      field_of s StudentId = VStr id ->
      (forall x, In x l1 -> field_of x StudentId <> VStr id) ->
      delete_student SEED id (Holds (VArr l))
      = ({| status := 200; body := s |}, Holds (VArr (l1 ++ l2)))) /\
  (l <> [] ->
   (forall x, In x l -> field_of x StudentId <> VStr id) ->
   delete_student SEED id (Holds (VArr l))
   = (error 404 (lit "Not found"), Holds (VArr l))).
Proof.
  intros Hrec. split.
  - intros l1 s l2 -> Hs Hl1.
    apply Forall_app in Hrec. destruct Hrec as [H1 H2].
    inversion H2 as [|? ? Hobj _]; subst.
    rewrite delete_student_cases.
    rewrite current_nonempty by now destruct l1.
    unfold findIndex.
    rewrite findIndex_from_found.
    + simpl Z.add.
      replace (Z.of_nat (List.length l1) =? -1)%Z with false
        by (symmetry; apply Z.eqb_neq; lia).
      now rewrite splice1_at.
    + now apply same_id_none.
    + rewrite same_id_object by now apply object_not_nullish.
      f_equal. now apply strict_eq_str.
  - intros Hl Habsent. rewrite delete_student_cases.
    rewrite current_nonempty by assumption.
    unfold findIndex. rewrite findIndex_from_absent; [reflexivity|].
    now apply same_id_none.
Qed.

Lemma delete_present_or_absent_witness :
  (forall l1 s l2,
      [nicolas; chelsea] = l1 ++ s :: l2 ->
      field_of s StudentId = VStr (lit "BP-113-00001") ->
      (forall x, In x l1 -> field_of x StudentId <> VStr (lit "BP-113-00001")) ->
      delete_student (VArr [nicolas]) (lit "BP-113-00001")
                     (Holds (VArr [nicolas; chelsea]))
      = ({| status := 200; body := s |}, Holds (VArr (l1 ++ l2)))) /\
  ([nicolas; chelsea] <> [] ->
   (forall x, In x [nicolas; chelsea] ->
              field_of x StudentId <> VStr (lit "BP-113-00001")) ->
   delete_student (VArr [nicolas]) (lit "BP-113-00001")
                  (Holds (VArr [nicolas; chelsea]))
   = (error 404 (lit "Not found"), Holds (VArr [nicolas; chelsea]))).
Proof.
  apply (delete_present_or_absent
           (VArr [nicolas]) (lit "BP-113-00001") [nicolas; chelsea]).
  repeat constructor.
Defined.

(** C6 fails as stated. The stored collection is empty, so the id of Nicolas
    is absent from it; the route answers 404 and the file, which held the
    empty array, now holds the seed. With the id of Chelsea, absent from the
    stored collection as well, the answer is 200: the record comes from the
    seed that replaced the empty collection. *)
Lemma delete_on_empty_store_reseeds :
  (forall x, In x [] -> field_of x StudentId <> VStr (lit "BM-113-00002")) /\
  delete_student (VArr [chelsea]) (lit "BM-113-00002") (Holds (VArr []))
  = (error 404 (lit "Not found"), Holds (VArr [chelsea])) /\
  Holds (VArr [chelsea]) <> Holds (VArr []) /\
  delete_student (VArr [chelsea]) (lit "BP-113-00001") (Holds (VArr []))
  = ({| status := 200; body := chelsea |}, Holds (VArr [])).
Proof.
  split; [intros x []|]. split; [vm_compute; reflexivity|].
  split; [discriminate|]. vm_compute. reflexivity.
Qed.

(** C10, as the code has it. On a stored collection that is not empty, a
    delete answered 200 has removed the first element whose [studentId] is
    the id and nothing else: the file holds the elements before it and the
    elements after it, in their order, and the answer carries the element
    removed. *)
Theorem delete_removes_first_match_only
    (SEED : value) (id : jsstring) (l : list value)
    (r : response) (f' : file) :
  l <> [] ->
  delete_student SEED id (Holds (VArr l)) = (r, f') ->
  status r = 200 ->
  exists l1 s l2,
    l = l1 ++ s :: l2 /\
    field_of s StudentId = VStr id /\
    (forall x, In x l1 -> field_of x StudentId <> VStr id) /\
    body r = s /\
    f' = Holds (VArr (l1 ++ l2)).
Proof.
  intros Hl Hdel Hstatus. rewrite delete_student_cases in Hdel.
  rewrite current_nonempty in Hdel by assumption. unfold findIndex in Hdel.
  destruct (findIndex_from (same_id (VStr id)) l 0) as [idx|] eqn:Hidx;
    [|inversion Hdel; subst; discriminate].
  destruct (findIndex_from_inv _ _ _ _ (Z.le_refl 0) Hidx)
    as [[-> _]|[l1 [s [l2 [-> [-> [Hs Hl1]]]]]]].
  - inversion Hdel; subst. discriminate.
  - simpl Z.add in Hdel.
    replace (Z.of_nat (List.length l1) =? -1)%Z with false in Hdel
      by (symmetry; apply Z.eqb_neq; lia).
    rewrite splice1_at in Hdel. inversion Hdel; subst.
    exists l1, s, l2. repeat split.
    + unfold same_id in Hs. unfold field_of, opt_get, field_name.
      destruct (get s (lit "studentId")); [|discriminate].
      apply strict_eq_str. congruence.
    + intros x Hx Heq. rewrite Forall_forall in Hl1. specialize (Hl1 x Hx).
      unfold same_id in Hl1. unfold field_of, opt_get, field_name in Heq.
      destruct (get x (lit "studentId")); [|discriminate].
      apply strict_eq_str in Heq. congruence.
Qed.

Lemma delete_removes_first_match_only_witness :
  exists l1 s l2,
    [nicolas; chelsea; chelsea_extra] = l1 ++ s :: l2 /\
    field_of s StudentId = VStr (lit "BP-113-00001") /\
    (forall x, In x l1 -> field_of x StudentId <> VStr (lit "BP-113-00001")) /\
    body {| status := 200; body := chelsea |} = s /\
    Holds (VArr [nicolas; chelsea_extra]) = Holds (VArr (l1 ++ l2)).
Proof.
  apply (delete_removes_first_match_only
           (VArr [nicolas]) (lit "BP-113-00001")
           [nicolas; chelsea; chelsea_extra]
           {| status := 200; body := chelsea |}
           (Holds (VArr [nicolas; chelsea_extra]))).
  - discriminate.
  - vm_compute. reflexivity.
  - reflexivity.
Defined.

(** C10 fails as stated. The stored collection is empty and the seed holds
    two records; the delete of the first is answered 200 and the file then
    holds the second: no record of the stored collection was removed, and
    the file is not the stored collection less one element. *)
Lemma delete_on_empty_store_is_not_a_removal :
  delete_student (VArr [chelsea; nicolas]) (lit "BP-113-00001")
                 (Holds (VArr []))
  = ({| status := 200; body := chelsea |}, Holds (VArr [nicolas])) /\
  ~ (exists l1 s l2,
        [] = l1 ++ s :: l2 /\
        Holds (VArr [nicolas]) = Holds (VArr (l1 ++ l2))).
Proof.
  split; [vm_compute; reflexivity|].
  intros [l1 [s [l2 [H _]]]]. now destruct l1.
Qed.

(** ** The year level *)

(** C8, as the code has it. For a candidate whose six other fields pass the
    tests of the create route and whose id is new, the [yearLevel] string
    decides: a bare numeral (one or more decimal digits, zero included) or a
    string that [^\d(st|nd|rd|th)\s+Year$] matches without regard to case is
    accepted, and the record is stored with 201; any other string is
    answered 400 with a message that names [yearLevel], and the file is left
    as it was. *)
Theorem create_yearLevel_decides
    (SEED payload : value) (f : file) (l : list value) (y : jsstring) :
  field_of payload YearLevel = VStr y ->
  (forall c, In c check_order -> check_field c <> YearLevel ->
             fails c payload = Some false) ->
  current SEED f = VArr l ->
  records l ->
  (forall s, In s l -> field_of s StudentId <> field_of payload StudentId) ->
  (Spec.all_digits y || RegExp.test ORDINAL_RE y = true ->
   post_students SEED payload f
   = ({| status := 201; body := payload |}, Holds (VArr (l ++ [payload])))) /\
  (Spec.all_digits y || RegExp.test ORDINAL_RE y = false ->
   exists msg,
     post_students SEED payload f = (error 400 msg, f) /\
     names msg YearLevel = true).
Proof.
  intros Hy Hothers Hcur Hrec Hfresh.
  assert (Hn : nullish payload = false)
    by now apply field_str_not_nullish in Hy.
  assert (Hformat : fails YearLevelFormat payload
                    = Some (negb (Spec.all_digits y
                                  || RegExp.test ORDINAL_RE y))).
  { unfold fails. rewrite Hy. cbn [to_string option_map].
    rewrite num_year_all_digits.
    now destruct (Spec.all_digits y), (RegExp.test ORDINAL_RE y). }
  split; intros Hyear.
  - assert (Hp : fails (Presence YearLevel) payload = Some false).
    { unfold fails. rewrite Hy. apply head_present.
      apply orb_true_iff in Hyear. destruct Hyear as [H|H].
      - apply num_year_head. now rewrite num_year_all_digits.
      - now apply ordinal_head. }
    rewrite post_students_cases by assumption.
    rewrite run_checks_passes.
    + rewrite Hcur. simpl.
      rewrite some_of_none_match by (apply same_id_none; assumption).
      reflexivity.
    + unfold check_order. cbn [forallb].
      unfold passes. rewrite Hformat, Hyear, Hp.
      rewrite !Hothers by (simpl; intuition discriminate). reflexivity.
  - destruct (fails (Presence YearLevel) payload) as [[|]|] eqn:Hp.
    + exists (message (Presence YearLevel)).
      apply (create_first_failing SEED payload f
               [ Presence StudentId; Presence FullName; Presence Gender;
                 Presence Gmail; Presence Program ]
               [ Presence University; GmailFormat; YearLevelFormat;
                 StudentIdFormat ]); auto.
      intros c' Hin. apply Hothers.
      * simpl in Hin. simpl. intuition.
      * simpl in Hin. intuition (subst; discriminate).
    + exists (message YearLevelFormat).
      apply (create_first_failing SEED payload f
               [ Presence StudentId; Presence FullName; Presence Gender;
                 Presence Gmail; Presence Program; Presence YearLevel;
                 Presence University; GmailFormat ]
               [ StudentIdFormat ]); auto.
      * intros c' Hin.
        destruct (check_eq_dec c' (Presence YearLevel)) as [->|Hne];
          [assumption|].
        apply Hothers.
        -- simpl in Hin. simpl. intuition.
        -- simpl in Hin. intuition (subst; try discriminate; congruence).
      * now rewrite Hformat, Hyear.
    + unfold fails, is_missing in Hp. rewrite Hy in Hp.
      cbn [to_string option_map] in Hp.
      destruct (negb (truthy (VStr y))); discriminate.
Qed.

Lemma create_yearLevel_decides_witness :
  (Spec.all_digits (lit "5th Year") || RegExp.test ORDINAL_RE (lit "5th Year")
   = true ->
   post_students (VArr [nicolas]) chelsea (Holds (VArr [nicolas]))
   = ({| status := 201; body := chelsea |},
      Holds (VArr ([nicolas] ++ [chelsea])))) /\
  (Spec.all_digits (lit "5th Year") || RegExp.test ORDINAL_RE (lit "5th Year")
   = false ->
   exists msg,
     post_students (VArr [nicolas]) chelsea (Holds (VArr [nicolas]))
     = (error 400 msg, Holds (VArr [nicolas])) /\
     names msg YearLevel = true).
Proof.
  apply (create_yearLevel_decides
           (VArr [nicolas]) chelsea (Holds (VArr [nicolas])) [nicolas]
           (lit "5th Year")).
  - reflexivity.
  - intros c H _. simpl in H.
    repeat (destruct H as [<-|H]; [vm_compute; reflexivity|]). destruct H.
  - reflexivity.
  - repeat constructor.
  - intros s [<-|[]]. vm_compute. discriminate.
Defined.

(** C8 fails as stated. The [yearLevel] "0" is neither a positive integer
    nor an ordinal form, and the candidate is accepted: [^\d+$] asks for
    digits, not for a positive value. *)
Lemma create_accepts_yearLevel_zero :
  field_of year_zero YearLevel = VStr (lit "0") /\
  Spec.positive_integer (lit "0") = false /\
  RegExp.test ORDINAL_RE (lit "0") = false /\
  post_students (VArr [nicolas]) year_zero (Holds (VArr [nicolas]))
  = ({| status := 201; body := year_zero |},
     Holds (VArr [nicolas; year_zero])).
Proof. repeat split; vm_compute; reflexivity. Qed.

(** ** Chat *)

(** C3, as the code has it. Whatever the request body, the chat route
    answers 400 when the stored collection is absent or empty and the
    bundled seed is empty as well: the seed replaces the collection before it
    is read, and what is read is then empty. *)
Theorem chat_empty_collection_400
    (SEED : value) (KEY : jsstring)
    (axios : value -> jsstring -> option value) (body : value) (f : file) :
  f = Absent \/ f = Holds (VArr []) ->
  SEED = VArr [] ->
  status (fst (post_chat SEED KEY axios body f)) = 400.
Proof.
  intros Hf ->. apply chat_no_data. now destruct Hf as [-> | ->].
Qed.

Lemma chat_empty_collection_400_witness :
  status (fst (post_chat (VArr []) (lit "gsk-key") answering question
                         (Holds (VArr [])))) = 400.
Proof.
  apply (chat_empty_collection_400
           (VArr []) (lit "gsk-key") answering question (Holds (VArr []))).
  - right. reflexivity.
  - reflexivity.
Defined.

(** C3 fails as stated. The stored collection is empty and the request
    carries a message: the seed replaces the empty collection, the test for
    missing data passes, and the answer is 500 without a key, or 200 with the
    reply of the completion service when there is one. *)
Lemma chat_empty_store_is_reseeded :
  post_chat (VArr [chelsea; nicolas]) [] unreachable question (Holds (VArr []))
  = (error 500 (lit "LLM API key not configured on the server."),
     Holds (VArr [chelsea; nicolas])) /\
  post_chat (VArr [chelsea; nicolas]) (lit "gsk-key") answering question
            (Holds (VArr []))
  = ({| status := 200; body := VObj [(lit "reply", VStr (lit "2"))] |},
     Holds (VArr [chelsea; nicolas])).
Proof. split; vm_compute; reflexivity. Qed.

(** * Further properties of the code *)

(** ** More facts about the store and the searches *)

Lemma current_holds_current SEED f :
  current SEED (Holds (current SEED f)) = current SEED f.
Proof.
  destruct f as [| |v]; simpl; try apply current_seed.
  destruct v as [| | | | |l|]; try reflexivity.
  destruct l; [apply current_seed|reflexivity].
Qed.

Lemma current_not_array SEED v :
  is_array v = false -> current SEED (Holds v) = v.
Proof. destruct v; simpl; try reflexivity; discriminate. Qed.

Lemma some_of_false cb l :
  some_of cb l = Some false -> Forall (fun s => cb s = Some false) l.
Proof.
  induction l as [|x l IH]; simpl; [constructor|].
  destruct (cb x) as [[|]|] eqn:Hx; intros H; try discriminate.
  constructor; auto.
Qed.

Lemma same_id_false_differs id s :
  same_id (VStr id) s = Some false -> field_of s StudentId <> VStr id.
Proof.
  unfold same_id, field_of, opt_get, field_name.
  destruct (get s (lit "studentId")); [|discriminate].
  intros H Heq. apply strict_eq_str in Heq. congruence.
Qed.

Lemma same_id_true_is id s :
  same_id (VStr id) s = Some true -> field_of s StudentId = VStr id.
Proof.
  unfold same_id, field_of, opt_get, field_name.
  destruct (get s (lit "studentId")); [|discriminate].
  intros H. apply strict_eq_str. congruence.
Qed.

Lemma passes_validation_not_nullish payload :
  passes_validation payload = true -> nullish payload = false.
Proof.
  unfold passes_validation, check_order. cbn [forallb].
  intros H. apply andb_true_iff in H. destruct H as [H _].
  destruct payload; try reflexivity; discriminate.
Qed.

Lemma ids_app l1 l2 : ids (l1 ++ l2) = ids l1 ++ ids l2.
Proof. apply map_app. Qed.

(** ** The list route on every file *)

(** X1. Whatever the data file, the list route answers 200, the file then
    holds exactly the value answered, and a second call gives the same
    answer and the same file. *)
Theorem list_twice_is_list_once (SEED : value) (f : file) :
  status (fst (get_students SEED f)) = 200 /\
  snd (get_students SEED f) = Holds (body (fst (get_students SEED f))) /\
  get_students SEED (snd (get_students SEED f)) = get_students SEED f.
Proof.
  rewrite get_students_current. simpl. repeat split.
  rewrite get_students_current. now rewrite current_holds_current.
Qed.

(** X2. A data file that holds a JSON value other than an array is never
    repaired: the list route serves the value with 200, a delete and a
    create that passes validation answer 500, and all three leave the file
    as it is. *)
Theorem non_array_file_is_served_and_blocks_writes
    (SEED v payload : value) (id : jsstring) :
  is_array v = false ->
  passes_validation payload = true ->
  get_students SEED (Holds v) = ({| status := 200; body := v |}, Holds v) /\
  delete_student SEED id (Holds v)
  = (error 500 (lit "Failed to delete student."), Holds v) /\
  post_students SEED payload (Holds v)
  = (error 500 (lit "Failed to add student."), Holds v).
Proof.
  intros Hv Hpass. repeat split.
  - now rewrite get_students_current, current_not_array.
  - rewrite delete_student_cases, current_not_array by assumption.
    destruct v; try reflexivity; discriminate.
  - rewrite post_students_cases
      by now apply passes_validation_not_nullish.
    rewrite run_checks_passes by exact Hpass.
    rewrite current_not_array by assumption.
    destruct v; try reflexivity; discriminate.
Qed.

Lemma non_array_file_is_served_and_blocks_writes_witness :
  get_students (VArr [nicolas]) (Holds (VObj []))
  = ({| status := 200; body := VObj [] |}, Holds (VObj [])) /\
  delete_student (VArr [nicolas]) (lit "BP-113-00001") (Holds (VObj []))
  = (error 500 (lit "Failed to delete student."), Holds (VObj [])) /\
  post_students (VArr [nicolas]) chelsea (Holds (VObj []))
  = (error 500 (lit "Failed to add student."), Holds (VObj [])).
Proof.
  apply (non_array_file_is_served_and_blocks_writes
           (VArr [nicolas]) (VObj []) chelsea (lit "BP-113-00001")).
  - reflexivity.
  - vm_compute. reflexivity.
Defined.

(** ** What a failed request leaves behind *)

(** X3. The create route answers 201, 400, 409 or 500 and nothing else;
    unless it answers 201, the collection a later request reads is the one
    this request found. *)
Theorem create_status_and_frame (SEED payload : value) (f : file) :
  (status (fst (post_students SEED payload f)) = 201 \/
   status (fst (post_students SEED payload f)) = 400 \/
   status (fst (post_students SEED payload f)) = 409 \/
   status (fst (post_students SEED payload f)) = 500) /\
  (status (fst (post_students SEED payload f)) <> 201 ->
   current SEED (snd (post_students SEED payload f)) = current SEED f).
Proof.
  destruct (nullish payload) eqn:Hn.
  - rewrite post_students_nullish by assumption. simpl. auto.
  - rewrite post_students_cases by assumption.
    destruct (run_checks payload check_order);
      [|cbn [fst snd status error]; auto..].
    destruct (some (current SEED f) _) as [[|]|];
      [cbn [fst snd status error]; rewrite ?current_holds_current; auto
      | |cbn [fst snd status error]; rewrite ?current_holds_current; auto].
    destruct (push (current SEED f) payload);
      cbn [fst snd status error]; rewrite ?current_holds_current; auto.
    split; [auto|]. intros H. now elim H.
Qed.

(** X4. The delete route answers 200, 404 or 500 and nothing else; unless
    it answers 200, the collection a later request reads is the one this
    request found. *)
Theorem delete_status_and_frame (SEED : value) (id : jsstring) (f : file) :
  (status (fst (delete_student SEED id f)) = 200 \/
   status (fst (delete_student SEED id f)) = 404 \/
   status (fst (delete_student SEED id f)) = 500) /\
  (status (fst (delete_student SEED id f)) <> 200 ->
   current SEED (snd (delete_student SEED id f)) = current SEED f).
Proof.
  rewrite delete_student_cases.
  destruct (findIndex (current SEED f) _) as [idx|];
    [|cbn [fst snd status error]; rewrite ?current_holds_current; auto].
  destruct (idx =? -1)%Z;
    [cbn [fst snd status error]; rewrite ?current_holds_current; auto|].
  destruct (splice1 (current SEED f) idx);
    cbn [fst snd status error]; rewrite ?current_holds_current; auto.
  split; [auto|]. intros H. now elim H.
Qed.

(** ** The ids stay distinct *)

(** X5. When the ids of the collection are pairwise distinct and the
    candidate's [studentId] is a string, a create answered 201 appends the
    candidate and the ids are still pairwise distinct. *)
Theorem create_keeps_ids_distinct
    (SEED payload : value) (f f' : file) (r : response)
    (l : list value) (id : jsstring) :
  post_students SEED payload f = (r, f') ->
  status r = 201 ->
  field_of payload StudentId = VStr id ->
  current SEED f = VArr l ->
  NoDup (ids l) ->
  f' = Holds (VArr (l ++ [payload])) /\ NoDup (ids (l ++ [payload])).
Proof.
  intros Hpost Hstatus Hid Hcur Hnodup.
  assert (Hn : nullish payload = false)
    by now apply field_str_not_nullish in Hid.
  rewrite post_students_cases in Hpost by assumption.
  destruct (run_checks payload check_order);
    [|inversion Hpost; subst; discriminate..].
  rewrite Hcur, Hid in Hpost. simpl in Hpost.
  destruct (some_of (same_id (VStr id)) l) as [[|]|] eqn:Hsome;
    try (inversion Hpost; subst; discriminate).
  inversion Hpost; subst. split; [reflexivity|].
  rewrite ids_app. simpl. apply NoDup_app; auto.
  - repeat constructor. intros [].
  - intros x Hx [<-|[]]. rewrite Hid in Hx.
    unfold ids in Hx. apply in_map_iff in Hx. destruct Hx as [s [Hs Hin]].
    apply some_of_false in Hsome. rewrite Forall_forall in Hsome.
    apply (same_id_false_differs _ _ (Hsome s Hin)). congruence.
Qed.

Lemma create_keeps_ids_distinct_witness :
  Holds (VArr [nicolas; chelsea]) = Holds (VArr ([nicolas] ++ [chelsea])) /\
  NoDup (ids ([nicolas] ++ [chelsea])).
Proof.
  apply (create_keeps_ids_distinct
           (VArr [nicolas]) chelsea (Holds (VArr [nicolas]))
           (Holds (VArr [nicolas; chelsea]))
           {| status := 201; body := chelsea |} [nicolas]
           (lit "BP-113-00001")).
  - vm_compute. reflexivity.
  - reflexivity.
  - reflexivity.
  - reflexivity.
  - repeat constructor. intros [].
Defined.

(** X6. When the ids of the collection are pairwise distinct, a delete
    answered 200 leaves a collection one element shorter, whose ids are
    pairwise distinct and none of which is the id deleted. *)
Theorem delete_removes_the_id
    (SEED : value) (id : jsstring) (f f' : file) (r : response)
    (l : list value) :
  delete_student SEED id f = (r, f') ->
  status r = 200 ->
  current SEED f = VArr l ->
  NoDup (ids l) ->
  exists l',
    f' = Holds (VArr l') /\
    List.length l = S (List.length l') /\
    NoDup (ids l') /\
    ~ In (VStr id) (ids l').
Proof.
  intros Hdel Hstatus Hcur Hnodup.
  rewrite delete_student_cases, Hcur in Hdel. unfold findIndex in Hdel.
  destruct (findIndex_from (same_id (VStr id)) l 0) as [idx|] eqn:Hidx;
    [|inversion Hdel; subst; discriminate].
  destruct (findIndex_from_inv _ _ _ _ (Z.le_refl 0) Hidx)
    as [[-> _]|[l1 [s [l2 [-> [-> [Hs Hl1]]]]]]].
  - inversion Hdel; subst. discriminate.
  - simpl Z.add in Hdel.
    replace (Z.of_nat (List.length l1) =? -1)%Z with false in Hdel
      by (symmetry; apply Z.eqb_neq; lia).
    rewrite splice1_at in Hdel. inversion Hdel; subst.
    apply same_id_true_is in Hs.
    rewrite ids_app in Hnodup. simpl in Hnodup. rewrite Hs in Hnodup.
    exists (l1 ++ l2). repeat split.
    + rewrite !length_app. simpl. lia.
    + rewrite ids_app. now apply NoDup_remove_1 in Hnodup.
    + rewrite ids_app. now apply NoDup_remove_2 in Hnodup.
Qed.

Lemma delete_removes_the_id_witness :
  exists l',
    Holds (VArr [nicolas]) = Holds (VArr l') /\
    List.length [nicolas; chelsea] = S (List.length l') /\
    NoDup (ids l') /\
    ~ In (VStr (lit "BP-113-00001")) (ids l').
Proof.
  apply (delete_removes_the_id
           (VArr [nicolas]) (lit "BP-113-00001")
           (Holds (VArr [nicolas; chelsea])) (Holds (VArr [nicolas]))
           {| status := 200; body := chelsea |} [nicolas; chelsea]).
  - vm_compute. reflexivity.
  - reflexivity.
  - reflexivity.
  - repeat constructor; simpl; [intros [H|[]]; discriminate H|intros []].
Defined.

(** ** Create, then delete *)

(** X7. A create answered 201 for a candidate whose [studentId] is a string
    can be undone: the delete of that id answers 200 with the candidate, and
    the file holds the collection the create had found. *)
Theorem create_then_delete_restores
    (SEED payload : value) (f f' : file) (r : response) (id : jsstring) :
  post_students SEED payload f = (r, f') ->
  status r = 201 ->
  field_of payload StudentId = VStr id ->
  delete_student SEED id f'
  = ({| status := 200; body := payload |}, Holds (current SEED f)).
Proof.
  intros Hpost Hstatus Hid.
  assert (Hn : nullish payload = false)
    by now apply field_str_not_nullish in Hid.
  rewrite post_students_cases in Hpost by assumption.
  destruct (run_checks payload check_order);
    [|inversion Hpost; subst; discriminate..].
  rewrite Hid in Hpost.
  destruct (current SEED f) as [| | | | |l|] eqn:Hcur; simpl in Hpost;
    try (inversion Hpost; subst; discriminate).
  destruct (some_of (same_id (VStr id)) l) as [[|]|] eqn:Hsome;
    try (inversion Hpost; subst; discriminate).
  inversion Hpost; subst.
  rewrite delete_student_cases.
  rewrite current_nonempty by now destruct l.
  unfold findIndex. rewrite findIndex_from_found.
  - simpl Z.add.
    replace (Z.of_nat (List.length l) =? -1)%Z with false
      by (symmetry; apply Z.eqb_neq; lia).
    rewrite splice1_at. simpl. now rewrite app_nil_r.
  - now apply some_of_false.
  - rewrite same_id_object by assumption. rewrite Hid. f_equal.
    now apply strict_eq_str.
Qed.

Lemma create_then_delete_restores_witness :
  delete_student (VArr [nicolas]) (lit "BP-113-00001")
                 (Holds (VArr [nicolas; chelsea]))
  = ({| status := 200; body := chelsea |},
     Holds (current (VArr [nicolas]) (Holds (VArr [nicolas])))).
Proof.
  apply (create_then_delete_restores
           (VArr [nicolas]) chelsea (Holds (VArr [nicolas]))
           (Holds (VArr [nicolas; chelsea]))
           {| status := 201; body := chelsea |} (lit "BP-113-00001")).
  - vm_compute. reflexivity.
  - reflexivity.
  - reflexivity.
Defined.

(** X8. Deleting the only record leaves the empty array in the file, and the
    next list answers the seed and writes it back: the collection is never
    served empty unless the seed is. *)
Theorem delete_last_record_brings_the_seed_back
    (SEED s : value) (id : jsstring) :
  field_of s StudentId = VStr id ->
  delete_student SEED id (Holds (VArr [s]))
  = ({| status := 200; body := s |}, Holds (VArr [])) /\
  get_students SEED (Holds (VArr []))
  = ({| status := 200; body := SEED |}, Holds SEED).
Proof.
  intros Hid. split; [|reflexivity].
  assert (Hn : nullish s = false) by now apply field_str_not_nullish in Hid.
  rewrite delete_student_cases. simpl.
  rewrite same_id_object by assumption. rewrite Hid.
  replace (strict_eq (VStr id) (VStr id)) with true
    by (symmetry; now apply strict_eq_str).
  reflexivity.
Qed.

Lemma delete_last_record_brings_the_seed_back_witness :
  delete_student (VArr [nicolas]) (lit "BP-113-00001") (Holds (VArr [chelsea]))
  = ({| status := 200; body := chelsea |}, Holds (VArr [])) /\
  get_students (VArr [nicolas]) (Holds (VArr []))
  = ({| status := 200; body := VArr [nicolas] |}, Holds (VArr [nicolas])).
Proof.
  apply (delete_last_record_brings_the_seed_back
           (VArr [nicolas]) chelsea (lit "BP-113-00001")).
  reflexivity.
Defined.

(** ** Trimming twice *)

Lemma trimStart_head s :
  trimStart s = [] \/
  exists c s', trimStart s = c :: s' /\ is_white_space c = false.
Proof.
  induction s as [|c s IH]; simpl; [now left|].
  destruct (is_white_space c) eqn:Hc; [exact IH|]. right. eauto.
Qed.

Lemma trimStart_fixed c s :
  is_white_space c = false -> trimStart (c :: s) = c :: s.
Proof. intros Hc. simpl. now rewrite Hc. Qed.

Lemma trimStart_idem s : trimStart (trimStart s) = trimStart s.
Proof.
  destruct (trimStart_head s) as [->|[c [s' [-> Hc]]]]; [reflexivity|].
  now apply trimStart_fixed.
Qed.

Lemma trimStart_last a c :
  is_white_space c = false -> exists b, trimStart (a ++ [c]) = b ++ [c].
Proof.
  intros Hc. induction a as [|d a IH]; simpl.
  - rewrite Hc. now exists [].
  - destruct (is_white_space d); [exact IH|]. now exists (d :: a).
Qed.

Lemma trimEnd_idem s : trimEnd (trimEnd s) = trimEnd s.
Proof. unfold trimEnd. now rewrite rev_involutive, trimStart_idem. Qed.

Lemma trimEnd_head c s :
  is_white_space c = false -> exists s', trimEnd (c :: s) = c :: s'.
Proof.
  intros Hc. unfold trimEnd. simpl.
  destruct (trimStart_last (rev s) c Hc) as [b ->].
  rewrite rev_app_distr. simpl. eauto.
Qed.

(** What [trim] returns is empty or starts and ends with a character that
    is not white space; trimming it again changes nothing. *)
Lemma trim_head s :
  trim s = [] \/ exists c t, trim s = c :: t /\ is_white_space c = false.
Proof.
  unfold trim.
  destruct (trimStart_head s) as [->|[c [s' [-> Hc]]]]; [now left|].
  destruct (trimEnd_head c s' Hc) as [t Ht]. right. eauto.
Qed.

Lemma trim_idem s : trim (trim s) = trim s.
Proof.
  destruct (trim_head s) as [E|[c [t [E Hc]]]].
  - now rewrite E.
  - assert (H : trim (trim s) = trimEnd (trim s)).
    { rewrite E. unfold trim. now rewrite trimStart_fixed. }
    rewrite H. unfold trim. apply trimEnd_idem.
Qed.

(** ** The chat route *)



(** X10. Without a key, the completion service is never called: for a
    proper message and a non-empty collection the answer is 500 "LLM API key
    not configured on the server.", whatever the service would have said. *)
Theorem chat_without_key_never_calls_upstream
    (SEED : value) (axios : value -> jsstring -> option value)
    (body : value) (f : file) (c : N) (m : jsstring)
    (s : value) (l : list value) :
  message_of body = VStr (c :: m) ->
  current SEED f = VArr (s :: l) ->
  post_chat SEED [] axios body f
  = (error 500 (lit "LLM API key not configured on the server."),
     Holds (VArr (s :: l))).
Proof.
  intros Hm Hcur. unfold post_chat. rewrite Hm. simpl.
  unfold try_catch, bind. rewrite readStudents_current, Hcur. reflexivity.
Qed.

Lemma chat_without_key_never_calls_upstream_witness :
  post_chat (VArr [nicolas]) [] answering question (Holds (VArr [chelsea]))
  = (error 500 (lit "LLM API key not configured on the server."),
     Holds (VArr [chelsea])).
Proof.
  apply (chat_without_key_never_calls_upstream
           (VArr [nicolas]) answering question (Holds (VArr [chelsea]))
           72 (lit "ow many students are there?") chelsea []).
  - reflexivity.
  - reflexivity.
Defined.

(** X11. A chat answer of 200 carries a reply that is a non-empty string
    with no white space at either end; it is given only with a key and on a
    non-empty collection, and the file then holds that collection. *)
Theorem chat_200_relays_a_trimmed_reply
    (SEED : value) (KEY : jsstring)
    (axios : value -> jsstring -> option value) (body : value)
    (f f' : file) (r : response) :
  post_chat SEED KEY axios body f = (r, f') ->
  status r = 200 ->
  exists reply s l,
    Http.body r = VObj [(lit "reply", VStr reply)] /\
    reply <> [] /\ trim reply = reply /\
    KEY <> [] /\
    current SEED f = VArr (s :: l) /\ f' = Holds (VArr (s :: l)).
Proof.
  intros Hchat Hstatus. unfold post_chat in Hchat.
  destruct (negb (truthy (message_of body))
            || negb (is_string (message_of body)));
    [inversion Hchat; subst; discriminate|].
  unfold try_catch, bind in Hchat. rewrite readStudents_current in Hchat.
  destruct (current SEED f) as [| | | | |[|s l]|] eqn:Hcur;
    try (inversion Hchat; subst; discriminate).
  cbn [is_array negb orb array_length List.length Nat.eqb] in Hchat.
  destruct KEY as [|k KEY]; [inversion Hchat; subst; discriminate|].
  cbn [truthy JsString.eqb negb] in Hchat.
  replace (JsString.eqb (k :: KEY) []) with false in Hchat
    by (symmetry; now apply eqb_neq).
  cbn [negb] in Hchat. unfold lift in Hchat.
  destruct (to_string (message_of body)) as [q|];
    [|inversion Hchat; subst; discriminate].
  destruct (axios (VArr (s :: l)) q) as [data|];
    [|inversion Hchat; subst; discriminate].
  destruct (opt_trim _) as [reply|] eqn:Hreply;
    [|inversion Hchat; subst; discriminate].
  destruct (truthy reply) eqn:Ht; cbn [negb] in Hchat;
    [|inversion Hchat; subst; discriminate].
  inversion Hchat; subst. simpl.
  unfold opt_trim in Hreply.
  destruct (opt_get _ _) as [| | | |content| |]; inversion Hreply; subst;
    try discriminate.
  exists (trim content), s, l. repeat split; try discriminate.
  - intros E. simpl in Ht. rewrite E in Ht. discriminate.
  - apply trim_idem.
Qed.

Lemma chat_200_relays_a_trimmed_reply_witness :
  exists reply s l,
    Http.body {| status := 200; body := VObj [(lit "reply", VStr (lit "2"))] |}
    = VObj [(lit "reply", VStr reply)] /\
    reply <> [] /\ trim reply = reply /\
    lit "gsk-key" <> [] /\
    current (VArr [nicolas]) (Holds (VArr [chelsea])) = VArr (s :: l) /\
    Holds (VArr [chelsea]) = Holds (VArr (s :: l)).
Proof.
  apply (chat_200_relays_a_trimmed_reply
           (VArr [nicolas]) (lit "gsk-key") answering question
           (Holds (VArr [chelsea])) (Holds (VArr [chelsea]))
           {| status := 200; body := VObj [(lit "reply", VStr (lit "2"))] |}).
  - vm_compute. reflexivity.
  - reflexivity.
Defined.

(** X12. The chat route answers 200, 400 or 500 and nothing else, and the
    collection a later request reads is the one this request found: the chat
    never adds, removes or changes a record. *)
Theorem chat_status_and_frame
    (SEED : value) (KEY : jsstring)
    (axios : value -> jsstring -> option value) (body : value) (f : file) :
  (status (fst (post_chat SEED KEY axios body f)) = 200 \/
   status (fst (post_chat SEED KEY axios body f)) = 400 \/
   status (fst (post_chat SEED KEY axios body f)) = 500) /\
  current SEED (snd (post_chat SEED KEY axios body f)) = current SEED f.
Proof.
  unfold post_chat.
  destruct (negb (truthy (message_of body))
            || negb (is_string (message_of body))); [simpl; auto|].
  unfold try_catch, bind. rewrite readStudents_current.
  destruct (negb (is_array (current SEED f))
            || Nat.eqb (array_length (current SEED f)) 0);
    [cbn [respond fst snd status error];
     rewrite current_holds_current; auto|].
  destruct (negb (truthy (VStr KEY)));
    [cbn [respond fst snd status error];
     rewrite current_holds_current; auto|].
  unfold lift.
  destruct (to_string (message_of body)) as [q|];
    [|cbn [fst snd status error]; rewrite current_holds_current; auto].
  destruct (axios (current SEED f) q) as [data|];
    [|cbn [fst snd status error]; rewrite current_holds_current; auto].
  destruct (opt_trim _) as [reply|];
    [|cbn [fst snd status error]; rewrite current_holds_current; auto].
  destruct (negb (truthy reply));
    cbn [respond ret fst snd status error];
    rewrite current_holds_current; auto.
Qed.

(** ** More facts about trimming *)

Lemma trimStart_before c a b :
  is_white_space c = false -> trimStart (a ++ c :: b) = trimStart a ++ c :: b.
Proof.
  intros Hc. induction a as [|d a IH]; simpl.
  - now rewrite Hc.
  - destruct (is_white_space d); [exact IH|reflexivity].
Qed.

Lemma trimEnd_after c a b :
  is_white_space c = false -> trimEnd (a ++ c :: b) = a ++ c :: trimEnd b.
Proof.
  intros Hc. unfold trimEnd.
  replace (rev (a ++ c :: b)) with (rev b ++ c :: rev a)
    by (rewrite rev_app_distr; simpl; now rewrite <- app_assoc).
  rewrite trimStart_before by assumption.
  rewrite rev_app_distr. simpl. rewrite rev_involutive.
  now rewrite <- app_assoc.
Qed.

Lemma trim_around c a b :
  is_white_space c = false ->
  trim (a ++ c :: b) = trimStart a ++ c :: trimEnd b.
Proof.
  intros Hc. unfold trim.
  now rewrite trimStart_before, trimEnd_after by assumption.
Qed.

Lemma blank_or_split s :
  (forall x, In x s -> is_white_space x = true) \/
  exists a c b, s = a ++ c :: b /\ is_white_space c = false.
Proof.
  induction s as [|d s IH]; [left; intros x []|].
  destruct (is_white_space d) eqn:Hd.
  - destruct IH as [H|[a [c [b [-> Hc]]]]].
    + left. intros x [<-|Hx]; auto.
    + right. exists (d :: a), c, b. auto.
  - right. exists [], d, s. auto.
Qed.

Lemma trimStart_blank s :
  (forall x, In x s -> is_white_space x = true) -> trimStart s = [].
Proof.
  induction s as [|d s IH]; intros H; [reflexivity|].
  simpl. rewrite (H d) by now left. apply IH. intros x Hx. apply H. now right.
Qed.

Lemma trimEnd_blank s :
  (forall x, In x s -> is_white_space x = true) -> trimEnd s = [].
Proof.
  intros H. unfold trimEnd. rewrite trimStart_blank; [reflexivity|].
  intros x Hx. apply H. now apply in_rev.
Qed.

Lemma trim_trimStart s : trim (trimStart s) = trim s.
Proof. unfold trim. now rewrite trimStart_idem. Qed.

Lemma trim_trimEnd s : trim (trimEnd s) = trim s.
Proof.
  destruct (blank_or_split s) as [H|[a [c [b [-> Hc]]]]].
  - rewrite (trimEnd_blank s H). unfold trim.
    now rewrite (trimStart_blank s H).
  - rewrite trimEnd_after by assumption.
    rewrite !trim_around by assumption. now rewrite trimEnd_idem.
Qed.

Lemma In_trimStart x s : In x (trimStart s) -> In x s.
Proof.
  induction s as [|d s IH]; simpl; [auto|].
  destruct (is_white_space d); [auto|]. intros H. exact H.
Qed.

Lemma In_trim x s : In x (trim s) -> In x s.
Proof.
  unfold trim, trimEnd. intros H. apply in_rev in H.
  apply In_trimStart in H. apply in_rev in H. now apply In_trimStart in H.
Qed.

Lemma equals_not_white_space : is_white_space 61 = false.
Proof. reflexivity. Qed.

(** ** [loadEnvFile] *)

Section EnvFacts.
Import Env.

Lemma indexOf_from_first c k v i :
  ~ In c k ->
  indexOf_from c (k ++ c :: v) i = (i + Z.of_nat (List.length k))%Z.
Proof.
  revert i. induction k as [|d k IH]; simpl; intros i Hk.
  - rewrite N.eqb_refl. lia.
  - destruct (N.eqb_spec d c) as [->|_]; [now elim Hk; left|].
    rewrite IH by (intros H; apply Hk; now right). lia.
Qed.

Lemma indexOf_from_none c s i :
  ~ In c s -> indexOf_from c s i = (-1)%Z.
Proof.
  revert i. induction s as [|d s IH]; simpl; intros i Hs; [reflexivity|].
  destruct (N.eqb_spec d c) as [->|_]; [now elim Hs; left|].
  apply IH. intros H. apply Hs. now right.
Qed.

Lemma indexOf_from_bound c s i :
  (0 <= i)%Z -> (-1 <= indexOf_from c s i)%Z /\
  (indexOf_from c s i <> -1 ->
   exists k v, s = k ++ c :: v /\ ~ In c k /\
               indexOf_from c s i = i + Z.of_nat (List.length k))%Z.
Proof.
  revert i. induction s as [|d s IH]; simpl; intros i Hi.
  - split; [lia|]. intros H. now elim H.
  - destruct (N.eqb_spec d c) as [->|Hd].
    + split; [lia|]. intros _. exists [], s. simpl. repeat split; auto. lia.
    + destruct (IH (i + 1)%Z ltac:(lia)) as [H1 H2]. split; [exact H1|].
      intros H. destruct (H2 H) as [k [v [-> [Hk E]]]].
      exists (d :: k), v. simpl. repeat split.
      * intros [E'|E']; [congruence|auto].
      * rewrite E. lia.
Qed.

(** The line the loop body gets, split at its first [=]. *)
Lemma each_line_at_equals state k v :
  ~ In 61 k ->
  each_line state (k ++ 61 :: v)
  = if JsString.eqb (trim k) [] then state
    else (setenv (trim k) (trim v) (fst state), S (snd state)).
Proof.
  intros Hk. unfold each_line.
  assert (Hclean : exists k', strip_bom (k ++ 61 :: v) = k' ++ 61 :: v /\
                              trim k' = trim k /\ ~ In 61 k').
  { destruct k as [|c k]; [exists []; auto|].
    simpl. destruct (N.eqb_spec c 65279) as [->|_].
    - exists k. split; [reflexivity|]. split; [reflexivity|].
      intros H. apply Hk. now right.
    - exists (c :: k). auto. }
  destruct Hclean as [k' [-> [Etrim Hk']]].
  unfold indexOf. rewrite indexOf_from_first by assumption. simpl Z.add.
  replace (Z.of_nat (List.length k') =? -1)%Z with false
    by (symmetry; apply Z.eqb_neq; lia).
  unfold slice_to, slice_from.
  replace (Z.to_nat (Z.of_nat (List.length k') + 1))
    with (S (List.length k')) by lia.
  rewrite Nat2Z.id, firstn_prefix, skipn_past, Etrim.
  now destruct (JsString.eqb (trim k) []).
Qed.

Lemma each_line_without_equals state line :
  ~ In 61 line -> each_line state line = state.
Proof.
  intros H. unfold each_line, indexOf.
  rewrite indexOf_from_none; [reflexivity|].
  destruct line as [|c l]; [auto|]. simpl.
  destruct (c =? 65279); [|exact H]. intros Hin. apply H. now right.
Qed.

Lemma each_line_shift e n line :
  each_line (e, n) line
  = (fst (each_line (e, O) line), (n + snd (each_line (e, O) line))%nat).
Proof.
  unfold each_line. cbn [fst snd].
  destruct (indexOf 61 (strip_bom line) =? -1)%Z;
    [cbn [fst snd]; f_equal; lia|].
  destruct (negb (JsString.eqb _ [])); cbn [fst snd]; f_equal; lia.
Qed.

Lemma fold_each_line_shift ls : forall e n,
  fold_left each_line ls (e, n)
  = (fst (fold_left each_line ls (e, O)),
     (n + snd (fold_left each_line ls (e, O)))%nat).
Proof.
  induction ls as [|l ls IH]; intros e n; simpl.
  - f_equal. lia.
  - rewrite (each_line_shift e n l).
    destruct (each_line (e, O) l) as [e1 n1] eqn:E. cbn [fst snd].
    rewrite (IH e1 (n + n1)%nat), (IH e1 n1). cbn [fst snd]. f_equal. lia.
Qed.

Lemma split_lines_cons s : exists l ls, split_lines s = l :: ls.
Proof.
  induction s as [|c s [l [ls IH]]]; simpl; [eauto|].
  destruct (c =? 10); [eauto|].
  destruct s as [|d s']; [simpl; eauto|].
  destruct ((c =? 13) && (d =? 10)); [eauto|].
  rewrite IH. simpl. eauto.
Qed.

Lemma split_lines_single line : ~ In 10 line -> split_lines line = [line].
Proof.
  induction line as [|c line IH]; intros H; [reflexivity|].
  simpl. destruct (N.eqb_spec c 10) as [->|_]; [now elim H; left|].
  assert (Hl : ~ In 10 line) by (intros Hin; apply H; now right).
  destruct line as [|d line']; [reflexivity|].
  destruct (N.eqb_spec d 10) as [->|_]; [now elim Hl; left|].
  rewrite andb_false_r. now rewrite (IH Hl).
Qed.

Lemma trimEnd_app_ws w l :
  is_white_space w = true -> trimEnd (l ++ [w]) = trimEnd l.
Proof.
  intros Hw. unfold trimEnd. rewrite rev_app_distr. simpl. now rewrite Hw.
Qed.

Lemma trim_app_ws w l :
  is_white_space w = true -> trim (l ++ [w]) = trim l.
Proof.
  intros Hw. destruct (blank_or_split l) as [H|[a [c [b [-> Hc]]]]].
  - unfold trim. rewrite (trimStart_blank l H), trimStart_blank;
      [reflexivity|].
    intros x Hx. apply in_app_or in Hx. destruct Hx as [Hx|[<-|[]]]; auto.
  - rewrite <- app_assoc. simpl. rewrite !trim_around by assumption.
    now rewrite trimEnd_app_ws.
Qed.

(** The first line of a text: what precedes the first line feed, less the
    carriage return of a CRLF. *)
Lemma split_lines_first line raw :
  ~ In 10 line ->
  exists line',
    split_lines (line ++ 10 :: raw) = line' :: split_lines raw /\
    (line' = line \/ line = line' ++ [13]).
Proof.
  induction line as [|c line IH]; intros H.
  - exists []. simpl. auto.
  - assert (Hl : ~ In 10 line) by (intros Hin; apply H; now right).
    destruct (IH Hl) as [line' [E Hline]].
    simpl. destruct (N.eqb_spec c 10) as [->|_]; [now elim H; left|].
    destruct line as [|d line0].
    + simpl. destruct (N.eqb_spec c 13) as [->|_]; simpl.
      * exists []. auto.
      * exists [c]. auto.
    + simpl app. destruct (N.eqb_spec d 10) as [->|Hd];
        [now elim Hl; left|].
      simpl app in E. rewrite E. simpl.
      replace (d =? 10) with false by (symmetry; now apply N.eqb_neq).
      rewrite andb_false_r.
      exists (c :: line'). split; [reflexivity|].
      destruct Hline as [-> | E2]; [now left|right; now rewrite E2].
Qed.

Lemma split_lines_first_trim line raw :
  ~ In 10 line ->
  List.map trim (split_lines (line ++ 10 :: raw))
  = trim line :: List.map trim (split_lines raw).
Proof.
  intros H. destruct (split_lines_first line raw H) as [line' [-> Hl]].
  simpl. f_equal. destruct Hl as [-> | ->]; [reflexivity|].
  symmetry. now apply trim_app_ws.
Qed.

(** The lines kept, one line at a time. *)
Lemma kept_lines_first line raw :
  ~ In 10 line ->
  kept_lines (line ++ 10 :: raw) = kept_lines line ++ kept_lines raw.
Proof.
  intros H. unfold kept_lines.
  rewrite split_lines_first_trim by assumption.
  rewrite (split_lines_single line) by assumption.
  simpl. now destruct (_ && _).
Qed.

Lemma load_first line raw e :
  ~ In 10 line ->
  load (line ++ 10 :: raw) e
  = (fst (load raw (fst (load line e))),
     (snd (load line e) + snd (load raw (fst (load line e))))%nat).
Proof.
  intros H. unfold load. rewrite kept_lines_first by assumption.
  rewrite fold_left_app.
  destruct (fold_left each_line (kept_lines line) (e, O)) as [e1 n1].
  now rewrite fold_each_line_shift.
Qed.

Lemma load_single line e :
  ~ In 10 line ->
  load line e
  = if negb (JsString.eqb (trim line) []) && negb (startsWith 35 (trim line))
    then each_line (e, O) (trim line)
    else (e, O).
Proof.
  intros H. unfold load, kept_lines. rewrite split_lines_single by assumption.
  simpl. now destruct (_ && _).
Qed.

Lemma startsWith_trim_trimStart c k rest :
  trim k <> [] ->
  startsWith c (trimStart k ++ rest) = startsWith c (trim k).
Proof.
  intros Hk. unfold trim in *.
  destruct (trimStart_head k) as [E|[d [t [E Hd]]]];
    [rewrite E in Hk; now elim Hk|].
  rewrite E. destruct (trimEnd_head d t Hd) as [t' ->]. reflexivity.
Qed.

(** What one turn of the loop body does: nothing, or one assignment of a
    trimmed value to a trimmed, non-empty name without [=]. *)
Lemma each_line_cases state line :
  each_line state line = state \/
  exists k v,
    each_line state line = (setenv k v (fst state), S (snd state)) /\
    k <> [] /\ trim k = k /\ trim v = v /\ ~ In 61 k.
Proof.
  unfold each_line, indexOf.
  destruct (indexOf_from_bound 61 (strip_bom line) 0 (Z.le_refl 0))
    as [_ Hfound].
  destruct (Z.eqb_spec (indexOf_from 61 (strip_bom line) 0) (-1)) as [|Hidx];
    [now left|].
  destruct (Hfound Hidx) as [k0 [v0 [E [Hk0 _]]]].
  destruct (JsString.eqb (trim (slice_to _ _)) []) eqn:Hkey; [now left|].
  right. cbn [negb].
  exists (trim (slice_to (strip_bom line) (indexOf_from 61 (strip_bom line) 0))),
         (trim (slice_from (strip_bom line)
                  (indexOf_from 61 (strip_bom line) 0 + 1))).
  split; [reflexivity|]. split; [now apply eqb_neq|].
  split; [apply trim_idem|]. split; [apply trim_idem|].
  intros Hin. apply In_trim in Hin. unfold slice_to in Hin.
  rewrite E in Hin. rewrite indexOf_from_first in Hin by assumption.
  simpl Z.add in Hin. rewrite Nat2Z.id, firstn_prefix in Hin. auto.
Qed.

Lemma fold_each_line_well_formed ls : forall e0 n0,
  exists added,
    fst (fold_left each_line ls (e0, n0)) = added ++ e0 /\
    snd (fold_left each_line ls (e0, n0)) = (List.length added + n0)%nat /\
    forall k v, In (k, v) added ->
                k <> [] /\ trim k = k /\ trim v = v /\ ~ In 61 k.
Proof.
  induction ls as [|l ls IH]; intros e0 n0; simpl.
  - exists []. simpl. split; [reflexivity|]. split; [reflexivity|].
    intros k v [].
  - destruct (each_line_cases (e0, n0) l) as [->|[k [v [-> Hkv]]]].
    + apply IH.
    + cbn [fst snd].
      destruct (IH (setenv k v e0) (S n0)) as [added [E1 [E2 H]]].
      exists (added ++ [(k, v)]). rewrite E1, E2. unfold setenv.
      rewrite <- app_assoc, length_app. simpl.
      split; [reflexivity|]. split; [lia|].
      intros k' v' Hin. apply in_app_or in Hin.
      destruct Hin as [Hin|[Hin|[]]]; [now apply (H k' v')|].
      injection Hin as <- <-. exact Hkv.
Qed.

Lemma load_nothing raw e : snd (load raw e) = O -> fst (load raw e) = e.
Proof.
  unfold load. destruct (fold_each_line_well_formed (kept_lines raw) e O)
    as [added [E1 [E2 _]]].
  rewrite E1, E2. destruct added; [reflexivity|discriminate].
Qed.

End EnvFacts.

(** X13. A line [name=value] of the file, with a name that is not blank and
    does not start with [#], sets the trimmed name to the trimmed value,
    further [=] signs included; the lines after it are read with that
    variable set, and the count is one more. The line may end in CRLF or
    LF. *)
Theorem load_sets_a_variable
    (k v raw : jsstring) (e : Env.env) :
  ~ In 10 k -> ~ In 61 k -> ~ In 10 v ->
  trim k <> [] -> startsWith 35 (trim k) = false ->
  Env.load (k ++ 61 :: v ++ 10 :: raw) e
  = (fst (Env.load raw (Env.setenv (trim k) (trim v) e)),
     S (snd (Env.load raw (Env.setenv (trim k) (trim v) e)))).
Proof.
  intros Hk10 Hk61 Hv10 Hk Hhash.
  replace (k ++ 61 :: v ++ 10 :: raw) with ((k ++ 61 :: v) ++ 10 :: raw)
    by (rewrite <- app_assoc; reflexivity).
  assert (Hline : ~ In 10 (k ++ 61 :: v)).
  { intros H. apply in_app_or in H. destruct H as [H|[H|H]]; auto.
    discriminate H. }
  rewrite load_first by assumption.
  rewrite (load_single (k ++ 61 :: v)) by assumption.
  rewrite trim_around by reflexivity.
  rewrite startsWith_trim_trimStart, Hhash by assumption.
  replace (JsString.eqb (trimStart k ++ 61 :: trimEnd v) []) with false
    by (symmetry; apply eqb_neq; now destruct (trimStart k)).
  cbn [negb andb].
  rewrite each_line_at_equals
    by (intros H; apply In_trimStart in H; auto).
  rewrite trim_trimStart, trim_trimEnd.
  replace (JsString.eqb (trim k) []) with false
    by (symmetry; now apply eqb_neq).
  reflexivity.
Qed.

Lemma load_sets_a_variable_witness :
  Env.load (lit " GROQ_API_KEY " ++ 61 :: (lit " gsk=key" ++ [13])
              ++ 10 :: lit "# end") []
  = (fst (Env.load (lit "# end")
            (Env.setenv (trim (lit " GROQ_API_KEY "))
               (trim (lit " gsk=key" ++ [13])) [])),
     S (snd (Env.load (lit "# end")
               (Env.setenv (trim (lit " GROQ_API_KEY "))
                  (trim (lit " gsk=key" ++ [13])) [])))).
Proof.
  apply (load_sets_a_variable
           (lit " GROQ_API_KEY ") (lit " gsk=key" ++ [13]) (lit "# end") []).
  - vm_compute. intuition discriminate.
  - vm_compute. intuition discriminate.
  - vm_compute. intuition discriminate.
  - vm_compute. discriminate.
  - vm_compute. reflexivity.
Defined.

(** X14. A line that is blank, or a comment (its first character other than
    white space is [#]), or has no [=], sets nothing: the file is read as if
    the line were not there. *)
Theorem load_skips_what_is_not_an_assignment
    (line raw : jsstring) (e : Env.env) :
  ~ In 10 line ->
  trim line = [] \/ startsWith 35 (trim line) = true \/ ~ In 61 line ->
  Env.load (line ++ 10 :: raw) e = Env.load raw e.
Proof.
  intros Hline Hskip.
  assert (H0 : Env.load line e = (e, O)).
  { rewrite (load_single line) by assumption.
    destruct Hskip as [E|[E|H]].
    - now rewrite E.
    - rewrite E. now rewrite andb_false_r.
    - destruct (_ && _); [|reflexivity].
      apply each_line_without_equals. intros Hin. now apply In_trim in Hin. }
  rewrite load_first, H0 by assumption. simpl.
  now destruct (Env.load raw e).
Qed.

Lemma load_skips_what_is_not_an_assignment_witness :
  Env.load (lit "  # GROQ_API_KEY=old" ++ 10 :: lit "LLM_MODEL=m") []
  = Env.load (lit "LLM_MODEL=m") [].
Proof.
  apply (load_skips_what_is_not_an_assignment
           (lit "  # GROQ_API_KEY=old") (lit "LLM_MODEL=m") []).
  - vm_compute. intuition discriminate.
  - right. left. vm_compute. reflexivity.
Defined.

(** X15. A byte order mark in front of the text changes nothing: the
    trimming of the lines has removed it before the loop body looks for
    it. *)
Theorem load_ignores_a_byte_order_mark (raw : jsstring) (e : Env.env) :
  Env.load (65279 :: raw) e = Env.load raw e.
Proof.
  unfold Env.load, Env.kept_lines. f_equal. f_equal.
  destruct raw as [|d raw']; [reflexivity|].
  change (split_lines (65279 :: d :: raw'))
    with (push_front 65279 (split_lines (d :: raw'))).
  destruct (split_lines_cons (d :: raw')) as [l [ls ->]]. reflexivity.
Qed.

(** X16. Whatever the text, the loader only adds to the environment: what
    was set before stays underneath, the count is the number of assignments
    made, and every name set is non-empty, without [=] and without white
    space at either end, as is every value. *)
Theorem load_sets_only_well_formed_variables (raw : jsstring) (e : Env.env) :
  exists added,
    fst (Env.load raw e) = added ++ e /\
    snd (Env.load raw e) = List.length added /\
    forall k v, In (k, v) added ->
                k <> [] /\ trim k = k /\ trim v = v /\ ~ In 61 k.
Proof.
  unfold Env.load.
  destruct (fold_each_line_well_formed (Env.kept_lines raw) e O)
    as [added [E1 [E2 H]]].
  exists added. rewrite E1, E2.
  split; [reflexivity|]. split; [lia|exact H].
Qed.

(** X17. The second encoding is a fallback only: when the text read as
    UTF-8 gives at least one variable, the environment is the one that text
    gives; when it gives none, nothing has been set, and the environment is
    the one the text read as UTF-16LE gives, or the initial one if that read
    throws. *)
Theorem loadEnvFile_second_encoding_is_a_fallback
    (readFileSync : Env.encoding -> option jsstring)
    (raw : jsstring) (e : Env.env) :
  readFileSync Env.utf8 = Some raw ->
  Env.loadEnvFile true readFileSync e
  = if (0 <? snd (Env.load raw e))%nat then fst (Env.load raw e)
    else match readFileSync Env.utf16le with
         | Some raw16 => fst (Env.load raw16 e)
         | None => e
         end.
Proof.
  intros Hread. unfold Env.loadEnvFile. simpl. rewrite Hread.
  destruct (Env.load raw e) as [e1 n1] eqn:E1. simpl.
  destruct (0 <? n1)%nat eqn:Hn; [reflexivity|].
  assert (He : e1 = e).
  { apply Nat.ltb_ge in Hn. assert (n1 = O) by lia. subst n1.
    change e1 with (fst (e1, O)). rewrite <- E1. apply load_nothing.
    now rewrite E1. }
  subst e1. destruct (readFileSync Env.utf16le) as [raw16|]; [|reflexivity].
  destruct (Env.load raw16 e) as [e2 n2]. simpl. now destruct (0 <? n2)%nat.
Qed.

Lemma loadEnvFile_second_encoding_is_a_fallback_witness :
  Env.loadEnvFile true
    (fun enc => match enc with
                | Env.utf8 => Some (lit "no variable here")
                | Env.utf16le => Some (lit "GROQ_API_KEY=gsk-key")
                end) []
  = if (0 <? snd (Env.load (lit "no variable here") []))%nat
    then fst (Env.load (lit "no variable here") [])
    else fst (Env.load (lit "GROQ_API_KEY=gsk-key") []).
Proof.
  apply (loadEnvFile_second_encoding_is_a_fallback
           (fun enc => match enc with
                       | Env.utf8 => Some (lit "no variable here")
                       | Env.utf16le => Some (lit "GROQ_API_KEY=gsk-key")
                       end) (lit "no variable here") []).
  reflexivity.
Defined.

(** ** [tools/paste-to-json.js] *)

Section PasteFacts.
Import Paste.

Lemma push_new_filter ids rows : forall current,
  push_new ids rows current
  = current ++ filter (fun r => negb (has ids (field_of r StudentId))) rows.
Proof.
  induction rows as [|r rows IH]; intros current; simpl.
  - now rewrite app_nil_r.
  - change (opt_get r (lit "studentId")) with (field_of r StudentId).
    destruct (has ids (field_of r StudentId)); simpl; rewrite IH;
      [reflexivity|]. now rewrite <- app_assoc.
Qed.

Lemma ids_of_ids l i : ids_of l = Some i -> i = ids l.
Proof.
  revert i. induction l as [|s l IH]; simpl; intros i H.
  - now inversion H.
  - destruct (get s (lit "studentId")) as [id|] eqn:Hs; [|discriminate].
    destruct (ids_of l) as [i'|]; [|discriminate]. inversion H; subst.
    rewrite (IH i' eq_refl). f_equal.
    unfold field_of, opt_get, field_name. now rewrite Hs.
Qed.

Lemma has_str ids id : has ids (VStr id) = true <-> In (VStr id) ids.
Proof.
  unfold has. rewrite existsb_exists. split.
  - intros [x [Hx E]]. apply strict_eq_str in E. now subst.
  - intros H. exists (VStr id). split; [assumption|]. now apply strict_eq_str.
Qed.

Lemma row_of_id parts r :
  row_of parts = Some r -> exists id, field_of r StudentId = VStr id.
Proof.
  destruct parts as [|p1 [|p2 [|p3 [|p4 [|p5 [|p6 [|p7 [|p8 ps]]]]]]]];
    try discriminate.
  intros H. inversion H. now exists p1.
Qed.

Lemma rows_of_id lines r :
  In r (rows_of lines) -> exists id, field_of r StudentId = VStr id.
Proof.
  induction lines as [|line lines IH]; simpl; [intros []|].
  destruct (row_of (parts_of line)) as [r0|] eqn:E; [|exact IH].
  intros [<-|H]; [now apply (row_of_id _ _ E)|auto].
Qed.

Lemma push_front_length c pieces :
  List.length (push_front c pieces)
  = Nat.max 1 (List.length pieces).
Proof. destruct pieces; reflexivity. Qed.

Lemma split_on_length sep s :
  List.length (split_on sep s) = S (count_occ N.eq_dec s sep).
Proof.
  induction s as [|c s IH]; [reflexivity|].
  simpl. destruct (N.eqb_spec c sep) as [->|Hc].
  - simpl. rewrite IH. now destruct (N.eq_dec sep sep).
  - rewrite push_front_length, IH.
    destruct (N.eq_dec c sep); [contradiction|]. lia.
Qed.

End PasteFacts.

(** X18. On a data file that holds an array without [null], and with rows
    on the command line, the tool keeps the records of the file, in their
    order, and appends the pasted rows whose [studentId] is not in the file;
    the number it prints as added is the number of rows pasted, stored or
    not. *)
Theorem paste_appends_the_rows_with_new_ids
    (argv : list jsstring) (l i : list value) :
  Paste.ids_of l = Some i ->
  trim (join_with [10] argv) <> [] ->
  let rows := Paste.rows_of (Paste.lines_of (join_with [10] argv)) in
  let stored :=
    filter (fun r => negb (Paste.has (ids l) (field_of r StudentId))) rows in
  Paste.paste_to_json argv (Holds (VArr l))
  = (Paste.Logged (List.length rows) (List.length (l ++ stored)),
     Holds (VArr (l ++ stored))).
Proof.
  intros Hids Harg rows stored. unfold Paste.paste_to_json. simpl.
  replace (JsString.eqb (trim (join_with [10] argv)) []) with false
    by (symmetry; now apply eqb_neq).
  rewrite Hids, push_new_filter. now rewrite (ids_of_ids l i Hids).
Qed.

Lemma paste_appends_the_rows_with_new_ids_witness :
  let rows :=
    Paste.rows_of
      (Paste.lines_of
         (join_with [10]
            [lit "BP-113-00001 | Chelsea Greer | Female | c@gmail.com | BS Physics | 5th Year | CSU"])) in
  let stored :=
    filter (fun r => negb (Paste.has (ids [nicolas]) (field_of r StudentId)))
           rows in
  Paste.paste_to_json
    [lit "BP-113-00001 | Chelsea Greer | Female | c@gmail.com | BS Physics | 5th Year | CSU"]
    (Holds (VArr [nicolas]))
  = (Paste.Logged (List.length rows) (List.length ([nicolas] ++ stored)),
     Holds (VArr ([nicolas] ++ stored))).
Proof.
  apply (paste_appends_the_rows_with_new_ids
           [lit "BP-113-00001 | Chelsea Greer | Female | c@gmail.com | BS Physics | 5th Year | CSU"]
           [nicolas] (ids [nicolas])).
  - reflexivity.
  - vm_compute. discriminate.
Defined.

(** X19. The tool compares the pasted rows with the ids of the file, not
    with one another: a line whose [studentId] is not in the file, pasted
    twice, is stored twice, and the ids of the collection are no longer
    pairwise distinct. *)
Theorem paste_stores_a_new_id_twice
    (line : jsstring) (r : value) (l : list value) :
  Paste.row_of (Paste.parts_of line) = Some r ->
  ~ In (field_of r StudentId) (ids l) ->
  Paste.push_new (ids l) (Paste.rows_of [line; line]) l = l ++ [r; r] /\
  ~ NoDup (ids (l ++ [r; r])).
Proof.
  intros Hrow Hnew. split.
  - rewrite push_new_filter. simpl. rewrite Hrow. simpl.
    destruct (row_of_id _ _ Hrow) as [id Hid]. rewrite Hid in *.
    destruct (Paste.has (ids l) (VStr id)) eqn:Hhas; [|reflexivity].
    apply has_str in Hhas. contradiction.
  - rewrite ids_app. simpl. intros H. apply NoDup_app_remove_l in H.
    inversion H as [|? ? Hin _]. apply Hin. now left.
Qed.

Lemma paste_stores_a_new_id_twice_witness :
  Paste.push_new (ids [nicolas])
    (Paste.rows_of [lit "A-111-11111|a|b|c|d|e|f";
                    lit "A-111-11111|a|b|c|d|e|f"]) [nicolas]
  = [nicolas]
    ++ [student "A-111-11111" "a" "b" "c" "d" "e" "f";
        student "A-111-11111" "a" "b" "c" "d" "e" "f"] /\
  ~ NoDup (ids ([nicolas]
                ++ [student "A-111-11111" "a" "b" "c" "d" "e" "f";
                    student "A-111-11111" "a" "b" "c" "d" "e" "f"])).
Proof.
  apply (paste_stores_a_new_id_twice
           (lit "A-111-11111|a|b|c|d|e|f")
           (student "A-111-11111" "a" "b" "c" "d" "e" "f") [nicolas]).
  - reflexivity.
  - vm_compute. intuition discriminate.
Defined.

(** X20. A line gives a row exactly when it has six [|]: the number of parts
    is all the tool looks at. *)
Theorem paste_takes_lines_with_six_bars (line : jsstring) :
  (exists r, Paste.row_of (Paste.parts_of line) = Some r) <->
  count_occ N.eq_dec line 124 = 6%nat.
Proof.
  assert (Hlen : List.length (Paste.parts_of line)
                 = S (count_occ N.eq_dec line 124)).
  { unfold Paste.parts_of. now rewrite length_map, split_on_length. }
  destruct (Paste.parts_of line)
    as [|p1 [|p2 [|p3 [|p4 [|p5 [|p6 [|p7 [|p8 ps]]]]]]]];
    simpl in Hlen; simpl;
    (split;
     [intros [r H]; try discriminate H; lia|intros H; try lia; eauto]).
Qed.

(** X21. How the tool ends without writing. Without a data file it creates
    an empty one and stops on the exception of [readJson], leaving a file
    that the next read of the server replaces by the seed; with a file and
    no row on the command line it exits with code 1 and leaves the file
    alone. *)
Theorem paste_ends_without_writing
    (SEED v : value) (argv : list jsstring) :
  Paste.paste_to_json argv Absent = (Paste.Crashed, Garbled) /\
  get_students SEED (snd (Paste.paste_to_json argv Absent))
  = ({| status := 200; body := SEED |}, Holds SEED) /\
  (trim (join_with [10] argv) = [] ->
   Paste.paste_to_json argv (Holds v) = (Paste.Exited 1, Holds v)).
Proof.
  repeat split. intros H. unfold Paste.paste_to_json. simpl. now rewrite H.
Qed.

(** ** Escaping in the browser code *)

Section EscapeFacts.
Import Browser.

Lemma replaceAll_app c by_ a b :
  replaceAll c by_ (a ++ b) = replaceAll c by_ a ++ replaceAll c by_ b.
Proof. apply flat_map_app. Qed.

Lemma replaceAll_removes c by_ s : ~ In c by_ -> ~ In c (replaceAll c by_ s).
Proof.
  intros Hby H. unfold replaceAll in H. apply in_flat_map in H.
  destruct H as [d [_ Hd]]. destruct (N.eqb_spec d c) as [E|Hne].
  - contradiction.
  - destruct Hd as [E|[]]. congruence.
Qed.

Lemma replaceAll_adds_nothing x c by_ s :
  ~ In x s -> ~ In x by_ -> ~ In x (replaceAll c by_ s).
Proof.
  intros Hs Hby H. unfold replaceAll in H. apply in_flat_map in H.
  destruct H as [d [Hd Hx]]. destruct (d =? c).
  - contradiction.
  - destruct Hx as [E|[]]. subst d. contradiction.
Qed.

(** The text a character becomes in [escapeHtml]. *)
Lemma escapeHtml_one_pass t :
  replaceAll 62 (lit "&gt;") (replaceAll 60 (lit "&lt;")
    (replaceAll 38 (lit "&amp;") t))
  = flat_map (fun c => if c =? 38 then lit "&amp;"
                       else if c =? 60 then lit "&lt;"
                       else if c =? 62 then lit "&gt;"
                       else [c]) t.
Proof.
  induction t as [|c t IH]; [reflexivity|].
  change (c :: t) with ([c] ++ t).
  rewrite !replaceAll_app, IH, flat_map_app. f_equal.
  simpl. destruct (N.eqb_spec c 38) as [->|H38]; [reflexivity|].
  simpl. destruct (N.eqb_spec c 60) as [->|H60]; [reflexivity|].
  simpl. destruct (N.eqb_spec c 62) as [->|H62]; reflexivity.
Qed.

Lemma escape_one_pass_injective : forall a b,
  flat_map (fun c => if c =? 38 then lit "&amp;"
                     else if c =? 60 then lit "&lt;"
                     else if c =? 62 then lit "&gt;"
                     else [c]) a
  = flat_map (fun c => if c =? 38 then lit "&amp;"
                       else if c =? 60 then lit "&lt;"
                       else if c =? 62 then lit "&gt;"
                       else [c]) b ->
  a = b.
Proof.
  induction a as [|x a IH]; intros [|y b] H.
  - reflexivity.
  - simpl in H.
    destruct (y =? 38); [discriminate|]. destruct (y =? 60); [discriminate|].
    destruct (y =? 62); discriminate.
  - simpl in H.
    destruct (x =? 38); [discriminate|]. destruct (x =? 60); [discriminate|].
    destruct (x =? 62); discriminate.
  - simpl in H.
    destruct (N.eqb_spec x 38) as [->|X38];
      [|destruct (N.eqb_spec x 60) as [->|X60];
        [|destruct (N.eqb_spec x 62) as [->|X62]]];
    (destruct (N.eqb_spec y 38) as [->|Y38];
      [|destruct (N.eqb_spec y 60) as [->|Y60];
        [|destruct (N.eqb_spec y 62) as [->|Y62]]]);
    simpl in H; try congruence;
    injection H; intros; f_equal; solve [congruence | apply IH; assumption].
Qed.

End EscapeFacts.

(** X22. What [escapeHtml] returns holds no [<] and no [>], whatever it is
    given: the text put between the tags of a table cell opens no tag. *)
Theorem escapeHtml_leaves_no_angle_bracket (s : value) (t : jsstring) :
  Browser.escapeHtml s = Some t -> ~ In 60 t /\ ~ In 62 t.
Proof.
  unfold Browser.escapeHtml. destruct (to_string s) as [u|]; [|discriminate].
  intros H. inversion H; subst. split.
  - apply replaceAll_adds_nothing; [|vm_compute; intuition discriminate].
    apply replaceAll_removes. vm_compute. intuition discriminate.
  - apply replaceAll_removes. vm_compute. intuition discriminate.
Qed.

Lemma escapeHtml_leaves_no_angle_bracket_witness :
  ~ In 60 (lit "&lt;b&gt;Tom &amp; Ann&lt;/b&gt;") /\
  ~ In 62 (lit "&lt;b&gt;Tom &amp; Ann&lt;/b&gt;").
Proof.
  apply (escapeHtml_leaves_no_angle_bracket
           (VStr (lit "<b>Tom & Ann</b>"))
           (lit "&lt;b&gt;Tom &amp; Ann&lt;/b&gt;")).
  vm_compute. reflexivity.
Defined.

(** X23. [escapeHtml] loses nothing: two strings with the same escaped text
    are the same string. *)
Theorem escapeHtml_is_injective (a b : jsstring) :
  Browser.escapeHtml (VStr a) = Browser.escapeHtml (VStr b) -> a = b.
Proof.
  unfold Browser.escapeHtml. simpl. rewrite !escapeHtml_one_pass.
  intros H. injection H. apply escape_one_pass_injective.
Qed.

Lemma escapeHtml_is_injective_witness : lit "a<b" = lit "a<b".
Proof.
  apply (escapeHtml_is_injective (lit "a<b") (lit "a<b")). reflexivity.
Defined.

(** X24. What [escapeAttr] returns holds no double quote, so it cannot close
    the attribute it is put in; but the ampersand is left as it is, and a
    double quote and the six characters of its entity give the same text:
    two different ids can give the same [data-id]. *)
Theorem escapeAttr_closes_no_attribute_and_confuses_quotes
    (s : value) (a b : jsstring) :
  (forall t, Browser.escapeAttr s = Some t -> ~ In 34 t) /\
  Browser.escapeAttr (VStr (a ++ 34 :: b))
  = Browser.escapeAttr (VStr (a ++ lit "&quot;" ++ b)).
Proof.
  split.
  - unfold Browser.escapeAttr. destruct (to_string s) as [u|];
      [|discriminate].
    intros t H. inversion H; subst.
    apply replaceAll_removes. vm_compute. intuition discriminate.
  - unfold Browser.escapeAttr. simpl. f_equal.
    change (34 :: b) with ([34] ++ b).
    rewrite !replaceAll_app. reflexivity.
Qed.

(** ** The year number of the filter *)

Section YearFacts.
Import RegExp RegExpFacts Browser.

Local Arguments char_set_matches : simpl never.

Lemma canonicalize_digit c : Spec.is_digit c = true -> canonicalize c = c.
Proof.
  unfold Spec.is_digit, canonicalize. intros H.
  apply andb_true_iff in H. destruct H as [_ H]. apply N.leb_le in H.
  replace (97 <=? c) with false; [reflexivity|].
  symmetry. apply N.leb_gt. lia.
Qed.

Lemma canonicalize_to_digit c :
  Spec.is_digit (canonicalize c) = true -> canonicalize c = c.
Proof.
  unfold Spec.is_digit, canonicalize.
  destruct (97 <=? c) eqn:H1; destruct (c <=? 122) eqn:H2; simpl; auto.
  intros H. apply andb_true_iff in H. destruct H as [_ H].
  apply N.leb_le in H, H1, H2. lia.
Qed.

(** [\d] under [i] still accepts the ten digits only. *)
Lemma digit_class_i c :
  char_set_matches true [(48, 57)] c = true -> Spec.is_digit c = true.
Proof.
  intros H. apply char_set_matches_i in H. destruct H as [m [Hin Hm]].
  assert (Hd : Spec.is_digit m = true).
  { vm_compute in Hin. intuition (subst m; reflexivity). }
  rewrite (canonicalize_digit _ Hd) in Hm.
  assert (Hc : Spec.is_digit (canonicalize c) = true) by now rewrite <- Hm.
  rewrite (canonicalize_to_digit _ Hc) in Hm. now subst m.
Qed.

(** A class whose members are, canonically, no digits accepts no digit. *)
Lemma char_set_i_not_digit rs c :
  forallb (fun m => negb (Spec.is_digit (canonicalize m))) (members rs) = true ->
  Spec.is_digit c = true ->
  char_set_matches true rs c = false.
Proof.
  intros Hall Hc. destruct (char_set_matches true rs c) eqn:E; [|reflexivity].
  apply char_set_matches_i in E. destruct E as [m [Hin Hm]].
  rewrite forallb_forall in Hall. specialize (Hall m Hin).
  rewrite Hm, (canonicalize_digit _ Hc), Hc in Hall. discriminate.
Qed.

(** An ordinal year starts with one digit, and what follows the digit is
    not a digit. *)
Lemma ordinal_one_digit s :
  RegExp.test ORDINAL_RE s = true ->
  exists c rest, s = c :: rest /\ Spec.is_digit c = true /\
                 leading_digits rest = [].
Proof.
  destruct s as [|c [|x rest]]; try discriminate; intros H.
  - exists c, []. unfold RegExp.test in H. simpl in H.
    destruct (char_set_matches true [(48, 57)] c); discriminate.
  - exists c, (x :: rest). split; [reflexivity|].
    unfold RegExp.test in H. simpl in H.
    destruct (char_set_matches true [(48, 57)] c) eqn:Hc.
    2:{ simpl in H. rewrite void_matches in H by reflexivity. discriminate. }
    split; [now apply digit_class_i|].
    simpl. fold (Spec.is_digit x).
    destruct (Spec.is_digit x) eqn:Hx; [|reflexivity].
    simpl in H.
    rewrite !(char_set_i_not_digit _ x) in H by (assumption || reflexivity).
    rewrite void_matches in H by reflexivity. discriminate.
Qed.

Lemma leading_digits_head c rest :
  Spec.is_digit c = true ->
  leading_digits (c :: rest) = c :: leading_digits rest.
Proof. simpl. unfold Spec.is_digit. now intros ->. Qed.

Lemma Number_nonneg d : forall acc, (0 <= acc)%Z ->
  (0 <= fold_left (fun acc c => 10 * acc + Z.of_N (c - 48)) d acc)%Z.
Proof.
  induction d as [|c d IH]; intros acc H; cbn [fold_left]; [assumption|].
  apply IH. pose proof (N2Z.is_nonneg (c - 48)). lia.
Qed.

(** What a candidate that passed the tests of [POST /students] carries as
    its year level. *)
Lemma passes_yearLevel payload :
  passes_validation payload = true ->
  exists y, to_string (field_of payload YearLevel) = Some y /\
            (RegExp.test ORDINAL_RE y = true \/
             RegExp.test NUM_YEAR_RE y = true).
Proof.
  unfold passes_validation, check_order. cbn [forallb].
  rewrite !andb_true_iff.
  intros [_ [_ [_ [_ [_ [_ [_ [_ [H _]]]]]]]]].
  unfold passes, fails in H.
  destruct (to_string (field_of payload YearLevel)) as [y|]; [|discriminate].
  exists y. split; [reflexivity|]. simpl in H.
  destruct (RegExp.test ORDINAL_RE y); [now left|].
  destruct (RegExp.test NUM_YEAR_RE y); [now right|discriminate].
Qed.

End YearFacts.

(** X25. For the year level of a record that passed the tests of
    [POST /students], [getYearNumber] returns a number and never [NaN]: the
    year filter of the page can be compared with every record the server
    accepted. *)
Theorem getYearNumber_of_an_accepted_record (payload : value) :
  passes_validation payload = true ->
  exists n : Z,
    Browser.getYearNumber (field_of payload YearLevel) = Some (Some n) /\
    (0 <= n)%Z.
Proof.
  intros H. apply passes_yearLevel in H. destruct H as [y [Ey Hy]].
  assert (Hd : exists c rest, y = c :: rest /\ Spec.is_digit c = true).
  { destruct Hy as [Hy|Hy].
    - apply ordinal_one_digit in Hy. destruct Hy as [c [rest [E [Hc _]]]].
      eauto.
    - rewrite num_year_all_digits in Hy. unfold Spec.all_digits in Hy.
      destruct y as [|c rest]; [discriminate|]. simpl in Hy.
      apply andb_true_iff in Hy. destruct Hy as [Hc _]. eauto. }
  destruct Hd as [c [rest [-> Hc]]].
  unfold Browser.getYearNumber. rewrite Ey. cbn [option_map].
  rewrite (leading_digits_head _ _ Hc).
  eexists. split; [reflexivity|]. apply Number_nonneg. lia.
Qed.

Lemma getYearNumber_of_an_accepted_record_witness :
  exists n : Z,
    Browser.getYearNumber
      (field_of
         (VObj [ (lit "studentId", VStr (lit "BP-113-00001"));
                 (lit "fullName", VStr (lit "Ana Cruz"));
                 (lit "gender", VStr (lit "F"));
                 (lit "gmail", VStr (lit "ana@gmail.com"));
                 (lit "program", VStr (lit "BSIT"));
                 (lit "yearLevel", VStr (lit "3rd Year"));
                 (lit "university", VStr (lit "UM")) ]) YearLevel)
    = Some (Some n) /\ (0 <= n)%Z.
Proof.
  apply (getYearNumber_of_an_accepted_record
           (VObj [ (lit "studentId", VStr (lit "BP-113-00001"));
                   (lit "fullName", VStr (lit "Ana Cruz"));
                   (lit "gender", VStr (lit "F"));
                   (lit "gmail", VStr (lit "ana@gmail.com"));
                   (lit "program", VStr (lit "BSIT"));
                   (lit "yearLevel", VStr (lit "3rd Year"));
                   (lit "university", VStr (lit "UM")) ])).
  vm_compute. reflexivity.
Defined.

(** X26. For a year level of the ordinal form ([1st Year], [2ND year], ...)
    [getYearNumber] returns its first character read as a digit, a number
    from 0 to 9. *)
Theorem getYearNumber_of_an_ordinal (y : jsstring) :
  RegExp.test ORDINAL_RE y = true ->
  exists c rest,
    y = c :: rest /\
    Browser.getYearNumber (VStr y) = Some (Some (Z.of_N (c - 48))) /\
    (0 <= Z.of_N (c - 48) <= 9)%Z.
Proof.
  intros H. apply ordinal_one_digit in H.
  destruct H as [c [rest [-> [Hc Hrest]]]].
  exists c, rest. split; [reflexivity|].
  unfold Browser.getYearNumber. cbn [to_string option_map].
  rewrite (leading_digits_head _ _ Hc), Hrest. simpl.
  unfold Spec.is_digit in Hc. apply andb_true_iff in Hc.
  destruct Hc as [H1 H2]. apply N.leb_le in H1, H2.
  split; [reflexivity|lia].
Qed.

Lemma getYearNumber_of_an_ordinal_witness :
  exists c rest,
    lit "2ND  year" = c :: rest /\
    Browser.getYearNumber (VStr (lit "2ND  year"))
    = Some (Some (Z.of_N (c - 48))) /\
    (0 <= Z.of_N (c - 48) <= 9)%Z.
Proof.
  apply (getYearNumber_of_an_ordinal (lit "2ND  year")).
  vm_compute. reflexivity.
Defined.

(** ** The form of the page against the tests of the server *)

Lemma field_of_form data k :
  field_of (Client.payload data) k
  = VStr (match k with
          | StudentId => Client.studentId data
          | FullName => Client.fullName data
          | Gender => Client.gender data
          | Gmail => Client.gmail data
          | Program => Client.program data
          | YearLevel => Client.yearLevel data
          | University => Client.university data
          end).
Proof. destruct k; reflexivity. Qed.

Lemma complain_nothing cond msg : Client.complain cond msg = [] -> cond = false.
Proof. destruct cond; [discriminate|reflexivity]. Qed.

Lemma present_str s :
  is_missing (VStr s) = Some false <-> trim s <> [].
Proof.
  unfold is_missing. simpl. destruct s as [|c s].
  - simpl. split; [discriminate|]. intros H. now elim H.
  - simpl negb. cbn [option_map]. split.
    + intros H. apply eqb_neq. congruence.
    + intros H. f_equal. now apply eqb_neq.
Qed.

(** X27. What the form of the page lets through and the server still sends
    back. When the form handler finds no error, the candidate passes the
    tests of [POST /students] exactly when its [fullName] and its [gender]
    are not blank and its [yearLevel], as typed and not trimmed, is a
    numeral or an ordinal year: the handler accepts a name of spaces, does
    not look at the gender and tests the year level after trimming it. *)
Theorem form_without_errors_against_the_server (data : Client.form_data) :
  Client.errors data = [] ->
  (passes_validation (Client.payload data) = true <->
   trim (Client.fullName data) <> [] /\
   trim (Client.gender data) <> [] /\
   RegExp.test NUM_YEAR_RE (Client.yearLevel data)
   || RegExp.test ORDINAL_RE (Client.yearLevel data) = true).
Proof.
  unfold Client.errors. intros H.
  apply app_eq_nil in H. destruct H as [Hid H].
  apply app_eq_nil in H. destruct H as [Hname H].
  apply app_eq_nil in H. destruct H as [Hmail H].
  apply app_eq_nil in H. destruct H as [Hprog H].
  apply app_eq_nil in H. destruct H as [Huniv _].
  apply complain_nothing in Hid, Hname, Hmail, Hprog, Huniv.
  apply negb_false_iff in Hid, Hname, Hmail.
  split.
  - intros Hpass. split; [|split].
    + revert Hpass. unfold passes_validation, check_order. cbn [forallb].
      rewrite !andb_true_iff. intros [_ [Hp _]].
      unfold passes, fails in Hp. rewrite field_of_form in Hp.
      apply present_str.
      destruct (is_missing (VStr (Client.fullName data))) as [[|]|];
        try discriminate; reflexivity.
    + revert Hpass. unfold passes_validation, check_order. cbn [forallb].
      rewrite !andb_true_iff. intros [_ [_ [Hp _]]].
      unfold passes, fails in Hp. rewrite field_of_form in Hp.
      apply present_str.
      destruct (is_missing (VStr (Client.gender data))) as [[|]|];
        try discriminate; reflexivity.
    + apply passes_yearLevel in Hpass. destruct Hpass as [y [Ey Hy]].
      rewrite field_of_form in Ey. simpl in Ey. inversion Ey; subst y.
      apply orb_true_iff. tauto.
  - intros [Hn [Hg Hy]]. apply spec_valid_passes.
    + unfold Spec.valid, Spec.table. cbn [forallb]. unfold Spec.satisfies.
      rewrite !field_of_form. unfold Spec.rule.
      rewrite Hid, Hname, Hmail, Hprog, Huniv, Hy. simpl.
      destruct (Client.gender data); [now elim Hg|reflexivity].
    + unfold Spec.not_blank. rewrite field_of_form.
      apply negb_true_iff. now apply eqb_neq.
    + unfold Spec.not_blank. rewrite field_of_form.
      apply negb_true_iff. now apply eqb_neq.
Qed.

Lemma form_without_errors_against_the_server_witness :
  passes_validation
    (Client.payload
       {| Client.studentId := lit "BP-113-00001";
          Client.fullName := lit "  ";
          Client.gender := lit "Female";
          Client.gmail := lit "chelseagreer@gmail.com";
          Client.program := lit "BS Physics";
          Client.yearLevel := lit "5th Year";
          Client.university := lit "Caraga State University" |}) = true <->
  trim (lit "  ") <> [] /\
  trim (lit "Female") <> [] /\
  RegExp.test NUM_YEAR_RE (lit "5th Year")
  || RegExp.test ORDINAL_RE (lit "5th Year") = true.
Proof.
  apply (form_without_errors_against_the_server
           {| Client.studentId := lit "BP-113-00001";
              Client.fullName := lit "  ";
              Client.gender := lit "Female";
              Client.gmail := lit "chelseagreer@gmail.com";
              Client.program := lit "BS Physics";
              Client.yearLevel := lit "5th Year";
              Client.university := lit "Caraga State University" |}).
  vm_compute. reflexivity.
Defined.

(** ** The bulk add of the page *)

Section BulkFacts.
Import Browser.







End BulkFacts.


